(** * Ollama diagnostic scripts: a shallow embedding

    The repository holds two standalone scripts:

    - [check_ollama_config.py]: liveness, model availability, model
      metadata and one inference round-trip against a fixed local server;
    - [test_embedder.py]: loads the first embedder entry of
      [llm_models_json.json] and runs a connectivity, an embedding and a
      context-window check against it.

    Both are sequences of blocking HTTP calls and [print]s.  They are
    embedded here as computations in a small monad of effects and
    exceptions: a computation yields its result, or the exception it raised,
    together with the lines it printed and the requests it issued.
    The HTTP client ([requests], [httpx]), the JSON decoder and the file
    system are the environment: a network oracle answers the n-th request,
    and a file oracle gives the outcome of opening and decoding a file. *)

From Stdlib Require Import String Ascii List ZArith Bool.
Import ListNotations.
Set Warnings "-register-all".
Local Open Scope string_scope.
Local Open Scope Z_scope.

(** ** Decoded JSON values

    What [json.load] and [response.json()] return: Python [None], [bool],
    [int], [float], [str], [list] and [dict].  A [dict] keeps its insertion
    order, which the scripts rely on (first embedder entry, first key with a
    given suffix), so it is an association list.  A float is kept as the
    decimal [m * 10^e] of its literal; nothing below computes with it. *)

Inductive json : Type :=
| JNull
| JBool (b : bool)
| JInt (n : Z)
| JFloat (m e : Z)
| JStr (s : string)
| JArr (l : list json)
| JObj (o : list (string * json)).

(** ** HTTP messages *)

Inductive method := GET | POST.

Record request := mkRequest {
  req_method : method;
  req_url : string;
  req_headers : list (string * string);   (* the [headers=] argument *)
  req_json : option json;                 (* the [json=] argument *)
  req_timeout : Z;                        (* seconds *)
  req_follow_redirects : bool
}.

(** [resp_json] is what [response.json()] does: the decoded body, or the
    message of the decoding error it raises. *)
Record response := mkResponse {
  status_code : Z;
  text : string;
  resp_json : string + json
}.

(** ** Python exceptions the scripts can meet *)

Inductive exn : Type :=
| ConnectError (msg : string)      (* requests ConnectionError, httpx ConnectError *)
| TimeoutException (msg : string)  (* requests Timeout, httpx TimeoutException *)
| TransportError (msg : string)    (* any other exception of the HTTP client *)
| HTTPStatusError (r : response)
| JSONDecodeError (msg : string)
| FileNotFoundError
| OSError (msg : string)           (* any other failure of open() / decoding *)
| AttributeError
| KeyError (key : string)
| TypeError
| ValueError
| SystemExit (code : Z).

(** [except Exception] catches everything but [SystemExit]. *)
Definition is_Exception (e : exn) : bool :=
  match e with SystemExit _ => false | _ => true end.

Inductive result (A : Type) : Type :=
| Ret (a : A)
| Raise (e : exn).
Arguments Ret {A} a.
Arguments Raise {A} e.

(** How a request ends: with a response, whatever its status, or with an
    exception of the HTTP client. *)
Inductive net_result :=
| Responded (r : response)
| Unreachable (msg : string)   (* raises [ConnectError] *)
| TimedOut (msg : string)      (* raises [TimeoutException] *)
| Broken (msg : string).       (* raises another client exception *)

(** How [json.load(open(name))] ends. *)
Inductive load_result :=
| Loaded (j : json)
| Missing                      (* raises [FileNotFoundError] *)
| Undecodable (msg : string)   (* raises [JSONDecodeError] *)
| Unreadable (msg : string).   (* raises another exception *)

(** ** Console output

    A printed line is recorded as its f-string: the literal text and the
    interpolated values, in order.  Rendering a value ([str], [repr],
    [strip], the [:,] format, [round]) is left to Python. *)

Inductive piece : Type :=
| Lit (s : string)            (* literal text of the f-string *)
| Str (s : string)            (* an interpolated str *)
| Num (n : Z)                 (* an interpolated int *)
| Val (v : json)              (* an interpolated decoded value *)
| Stripped (s : string)       (* an interpolated [s.strip()] *)
| Comma (v : json)            (* [{v:,}] *)
| Rounded (vs : list json)    (* [{[round(v, 6) for v in vs]}] *)
| Exc (e : exn).              (* [{exc}] *)

Definition line := list piece.

(** ** Strings

    A Python str is kept as its UTF-8 encoding.  Equality, concatenation,
    [in], [endswith] and [rstrip("/")] read the same on the bytes as on the
    characters; where the code counts characters ([text[:500]], iteration)
    the bytes of one character are kept together. *)

Definition nl : string := String (ascii_of_nat 10) EmptyString.
Definition esc : string := String (ascii_of_nat 27) EmptyString.
Definition dquote : string := String (ascii_of_nat 34) EmptyString.

(** [s * n] *)
Fixpoint str_mul (s : string) (n : nat) : string :=
  match n with
  | O => EmptyString
  | S k => s ++ str_mul s k
  end.

(** [needle in hay] for two strs *)
Fixpoint contains (needle hay : string) : bool :=
  String.prefix needle hay ||
  match hay with
  | EmptyString => false
  | String _ t => contains needle t
  end.

(** [s.endswith(suffix)] *)
Fixpoint endswith (s suffix : string) : bool :=
  String.eqb s suffix ||
  match s with
  | EmptyString => false
  | String _ t => endswith t suffix
  end.

(** [s.rstrip("/")]: drops every trailing slash. *)
Fixpoint rstrip_slash (s : string) : string :=
  match s with
  | EmptyString => EmptyString
  | String c t =>
      match rstrip_slash t with
      | EmptyString => if Ascii.eqb c "/" then EmptyString else String c EmptyString
      | t' => String c t'
      end
  end.

(** [s.lower()] follows the Unicode tables of the interpreter, which are no
    part of the repository: the code below takes it as a parameter [lower].
    [ascii_lower] is what it does on ASCII text, for the examples. *)
Definition lower_ascii (c : ascii) : ascii :=
  let n := nat_of_ascii c in
  if (Nat.leb 65 n && Nat.leb n 90)%bool then ascii_of_nat (n + 32) else c.

Fixpoint ascii_lower (s : string) : string :=
  match s with
  | EmptyString => EmptyString
  | String c t => String (lower_ascii c) (ascii_lower t)
  end.

(** A byte that continues a character of more than one byte. *)
Definition is_continuation (c : ascii) : bool :=
  let n := nat_of_ascii c in
  (Nat.leb 128 n && Nat.ltb n 192)%bool.

(** [len(s)]: the number of characters. *)
Fixpoint char_length (s : string) : nat :=
  match s with
  | EmptyString => O
  | String c t => if is_continuation c then char_length t else S (char_length t)
  end.

(** [s[:n]]: the first [n] characters. *)
Fixpoint take_chars (n : nat) (s : string) : string :=
  match s with
  | EmptyString => EmptyString
  | String c t =>
      if is_continuation c then String c (take_chars n t)
      else match n with
           | O => EmptyString
           | S k => String c (take_chars k t)
           end
  end.

(** [sep.join(l)] for strs *)
Fixpoint join (sep : string) (l : list string) : string :=
  match l with
  | [] => EmptyString
  | [x] => x
  | x :: t => x ++ sep ++ join sep t
  end.

(** ** Python's dynamic operations on decoded values *)

(** truth value, as [if v], [not v], [v or w] test it *)
Definition truthy (v : json) : bool :=
  match v with
  | JNull => false
  | JBool b => b
  | JInt n => negb (n =? 0)
  | JFloat m _ => negb (m =? 0)
  | JStr s => negb (String.eqb s EmptyString)
  | JArr l => match l with [] => false | _ => true end
  | JObj o => match o with [] => false | _ => true end
  end.

Fixpoint lookup (k : string) (o : list (string * json)) : option json :=
  match o with
  | [] => None
  | (k', v) :: t => if String.eqb k k' then Some v else lookup k t
  end.

(** [d.get(k, default)]: only a dict has [get]. *)
Definition py_get (d : json) (k : string) (default : json) : result json :=
  match d with
  | JObj o => Ret (match lookup k o with Some v => v | None => default end)
  | _ => Raise AttributeError
  end.

(** [d[k]] with a str key *)
Definition py_getitem (d : json) (k : string) : result json :=
  match d with
  | JObj o => match lookup k o with Some v => Ret v | None => Raise (KeyError k) end
  | _ => Raise TypeError
  end.

(** [v == s] against a str *)
Definition eq_str (v : json) (s : string) : bool :=
  match v with
  | JStr s' => String.eqb s' s
  | _ => false
  end.

Definition continues (s : string) : bool :=
  match s with
  | String c _ => is_continuation c
  | EmptyString => false
  end.

(** The characters of a str, each with all its bytes. *)
Fixpoint split_chars (s : string) : list string :=
  match s with
  | EmptyString => []
  | String c t =>
      match split_chars t with
      | g :: gs =>
          if continues t then String c g :: gs
          else String c EmptyString :: g :: gs
      | [] => [String c EmptyString]
      end
  end.

Definition chars (s : string) : list json := map JStr (split_chars s).

(** [for x in v] *)
Definition py_iter (v : json) : result (list json) :=
  match v with
  | JArr l => Ret l
  | JObj o => Ret (map (fun kv => JStr (fst kv)) o)
  | JStr s => Ret (chars s)
  | _ => Raise TypeError
  end.

(** [d.keys()] *)
Definition py_keys (d : json) : result (list json) :=
  match d with
  | JObj o => Ret (map (fun kv => JStr (fst kv)) o)
  | _ => Raise AttributeError
  end.

(** [needle in v] for a str [needle]: substring of a str, element of a list,
    key of a dict; the other values are not containers. *)
Definition py_in (needle : string) (v : json) : result bool :=
  match v with
  | JStr s => Ret (contains needle s)
  | JArr l => Ret (existsb (fun x => eq_str x needle) l)
  | JObj o => Ret (existsb (fun kv => String.eqb (fst kv) needle) o)
  | _ => Raise TypeError
  end.

(** [s.rstrip("/")] on a value: only a str has [rstrip]. *)
Definition py_rstrip_slash (v : json) : result string :=
  match v with
  | JStr s => Ret (rstrip_slash s)
  | _ => Raise AttributeError
  end.

(** [s.lower()] on a value: only a str has [lower]. *)
Definition py_lower (lower : string -> string) (v : json) : result string :=
  match v with
  | JStr s => Ret (lower s)
  | _ => Raise AttributeError
  end.

(** [d.items()] *)
Definition py_items (d : json) : result (list (string * json)) :=
  match d with
  | JObj o => Ret o
  | _ => Raise AttributeError
  end.

(** [s in (t1, ..., tn)] for strs *)
Definition in_strs (s : string) (l : list string) : bool :=
  existsb (String.eqb s) l.

(** [sum(l)] for a list of bools *)
Fixpoint py_sum (l : list bool) : Z :=
  match l with
  | [] => 0
  | b :: t => (if b then 1 else 0) + py_sum t
  end.

(** [s.strip()] on a value: only a str has [strip]; what it leaves of the
    text is for Python to render. *)
Definition py_strip (v : json) : result piece :=
  match v with
  | JStr s => Ret (Stripped s)
  | _ => Raise AttributeError
  end.

(** [isinstance(v, (int, float))]; [bool] is a subclass of [int]. *)
Definition is_int_or_float (v : json) : bool :=
  match v with
  | JBool _ | JInt _ | JFloat _ _ => true
  | _ => false
  end.

(** [f"{v:,}"]: numbers accept the thousands separator, a str rejects it
    with [ValueError], the other types with [TypeError]. *)
Definition format_comma (v : json) : result piece :=
  match v with
  | JBool _ | JInt _ | JFloat _ _ => Ret (Comma v)
  | JStr _ => Raise ValueError
  | _ => Raise TypeError
  end.

(** [any(f(x) for x in l)]: stops at the first true element. *)
Fixpoint py_any (f : json -> result bool) (l : list json) : result bool :=
  match l with
  | [] => Ret false
  | x :: t =>
      match f x with
      | Raise e => Raise e
      | Ret true => Ret true
      | Ret false => py_any f t
      end
  end.

(** [[f(x) for x in l]] *)
Fixpoint py_map {A : Type} (f : json -> result A) (l : list json) : result (list A) :=
  match l with
  | [] => Ret []
  | x :: t =>
      match f x with
      | Raise e => Raise e
      | Ret y =>
          match py_map f t with
          | Raise e => Raise e
          | Ret ys => Ret (y :: ys)
          end
      end
  end.

(** [", ".join(l)]: every item must be a str. *)
Definition py_join (sep : string) (l : list json) : result string :=
  match py_map (fun x => match x with JStr s => Ret s | _ => Raise TypeError end) l with
  | Ret ss => Ret (join sep ss)
  | Raise e => Raise e
  end.

(** [next((k for k in keys if k.endswith(suffix)), None)] *)
Fixpoint next_endswith (suffix : string) (keys : list json) : result (option string) :=
  match keys with
  | [] => Ret None
  | JStr k :: t => if endswith k suffix then Ret (Some k) else next_endswith suffix t
  | _ :: _ => Raise AttributeError
  end.

(** ** The monad: console output, request log, exceptions

    A computation is told how many requests the process has issued so far
    and yields its result together with what it printed and the requests it
    issued itself. *)

Record effects := mkEffects {
  stdout : list line;
  calls : list request
}.

Definition no_effects : effects := mkEffects [] [].

Definition then_effects (e1 e2 : effects) : effects :=
  mkEffects (stdout e1 ++ stdout e2) (calls e1 ++ calls e2).

Definition M (A : Type) : Type := nat -> result A * effects.

Definition ret {A} (a : A) : M A := fun _ => (Ret a, no_effects).

Definition raise {A} (e : exn) : M A := fun _ => (Raise e, no_effects).

Definition lift {A} (r : result A) : M A := fun _ => (r, no_effects).

(** [k] runs after [e1] happened, [length (calls e1)] requests later. *)
Definition after {A} (e1 : effects) (k : M A) (n : nat) : result A * effects :=
  match k (length (calls e1) + n)%nat with
  | (r, e2) => (r, then_effects e1 e2)
  end.

Definition bind {A B} (c : M A) (k : A -> M B) : M B :=
  fun n =>
    match c n with
    | (Ret a, e1) => after e1 (k a) n
    | (Raise e, e1) => (Raise e, e1)
    end.

Notation "x <- c ;; k" := (bind c (fun x => k))
  (at level 61, c at next level, right associativity).
Notation "c ;; k" := (bind c (fun _ => k))
  (at level 61, right associativity).

(** [try: c except ...: h]: [h e] is the body of the first clause that
    matches [e], or [None] when no clause does and [e] propagates. *)
Definition try_except {A} (c : M A) (h : exn -> option (M A)) : M A :=
  fun n =>
    match c n with
    | (Ret a, e1) => (Ret a, e1)
    | (Raise e, e1) =>
        match h e with
        | Some handler => after e1 handler n
        | None => (Raise e, e1)
        end
    end.

(** A statement of a function body either returns from the function or
    goes on to the next statement. *)
Inductive flow (R A : Type) : Type :=
| Return (r : R)
| Continue (a : A).
Arguments Return {R A} r.
Arguments Continue {R A} a.

Definition bind_flow {R A} (c : M (flow R A)) (k : A -> M R) : M R :=
  bind c (fun f => match f with Return r => ret r | Continue a => k a end).

Notation "x <-! c ;; k" := (bind_flow c (fun x => k))
  (at level 61, c at next level, right associativity).

Definition print (l : line) : M unit :=
  fun _ => (Ret tt, mkEffects [l] []).

(** One blocking HTTP call: the request is logged, and the network oracle,
    given how many requests went before, tells how it ends. *)
Definition http (net : nat -> request -> net_result) (rq : request) : M response :=
  fun n =>
    match net n rq with
    | Responded r => (Ret r, mkEffects [] [rq])
    | Unreachable msg => (Raise (ConnectError msg), mkEffects [] [rq])
    | TimedOut msg => (Raise (TimeoutException msg), mkEffects [] [rq])
    | Broken msg => (Raise (TransportError msg), mkEffects [] [rq])
    end.

(** [json.load(open(name))] against the file oracle *)
Definition load (fs : string -> load_result) (name : string) : M json :=
  fun _ =>
    match fs name with
    | Loaded j => (Ret j, no_effects)
    | Missing => (Raise FileNotFoundError, no_effects)
    | Undecodable msg => (Raise (JSONDecodeError msg), no_effects)
    | Unreadable msg => (Raise (OSError msg), no_effects)
    end.

(** A process starts with no request issued. *)
Definition run {A} (c : M A) : result A * effects := c O.

(** [response.json()] *)
Definition json_of (r : response) : result json :=
  match resp_json r with
  | inr j => Ret j
  | inl msg => Raise (JSONDecodeError msg)
  end.

(** httpx's [raise_for_status]: any status outside 2xx raises. *)
Definition is_success (status : Z) : bool :=
  (200 <=? status) && (status <=? 299).

Definition raise_for_status (r : response) : M unit :=
  if is_success (status_code r) then ret tt else raise (HTTPStatusError r).

(** How the interpreter ends: 0 after a normal return, the code given to
    [sys.exit], 1 after any other uncaught exception (with a traceback). *)
Definition exit_status {A} (r : result A) : Z :=
  match r with
  | Ret _ => 0
  | Raise (SystemExit code) => code
  | Raise _ => 1
  end.

(** * check_ollama_config.py *)

Module check_ollama_config.

Definition OLLAMA_BASE_URL : string := "http://localhost:11434".
Definition MODEL_NAME : string := "qwen3:4b".

(** [requests.get(url, timeout=t)] and [requests.post(url, json=j, timeout=t)];
    requests follows redirects unless told otherwise. *)
Definition get_request (url : string) (timeout : Z) : request :=
  mkRequest GET url [] None timeout true.

Definition post_request (url : string) (payload : json) (timeout : Z) : request :=
  mkRequest POST url [] (Some payload) timeout true.

Definition tags_request : request := get_request (OLLAMA_BASE_URL ++ "/api/tags") 5.

Definition show_request : request :=
  post_request (OLLAMA_BASE_URL ++ "/api/show") (JObj [("name", JStr MODEL_NAME)]) 10.

Definition generate_request : request :=
  post_request (OLLAMA_BASE_URL ++ "/api/generate")
    (JObj [("model", JStr MODEL_NAME);
           ("prompt", JStr "Say 'Hello, configuration test successful!' and nothing else.");
           ("stream", JBool false)])
    60.

(** The verdict lines of [main]. *)
Definition all_passed : line :=
  [Lit "✅ All checks passed! Ollama is configured correctly."].
Definition some_failed : line :=
  [Lit "❌ Some checks failed. Please review the output above."].
Definition server_unreachable : line :=
  [Lit (nl ++ "❌ Configuration check failed. Ollama server is not reachable.")].
Definition model_missing : line :=
  [Lit (nl ++ "❌ Configuration check failed. Required model is not available.")].

(** Truth value of what a check returned; [None] is Python's [None], the
    value of a call that fell off the end of the function. *)
Definition truth (r : option bool) : bool :=
  match r with
  | Some b => b
  | None => false
  end.

Section Run.

Variable net : nat -> request -> net_result.

Definition check_ollama_status : M bool :=
  try_except
    (response <- http net tags_request ;;
     if status_code response =? 200 then
       print [Lit "✅ Ollama server is running."] ;;
       ret true
     else
       print [Lit "❌ Ollama server returned status code: "; Num (status_code response)] ;;
       ret false)
    (fun e =>
       match e with
       | ConnectError _ =>
           Some (print [Lit "❌ Could not connect to Ollama server. Make sure it is running."] ;;
                 ret false)
       | TimeoutException _ =>
           Some (print [Lit "❌ Connection to Ollama server timed out."] ;;
                 ret false)
       | _ => None
       end).

Definition check_model_available : M (option bool) :=
  try_except
    (response <- http net tags_request ;;
     if status_code response =? 200 then
       body <- lift (json_of response) ;;
       models <- lift (py_get body "models" (JArr [])) ;;
       items <- lift (py_iter models) ;;
       model_names <- lift (py_map (fun model => py_get model "name" (JStr EmptyString)) items) ;;
       found <- lift (py_any (py_in MODEL_NAME) model_names) ;;
       if found then
         print [Lit "✅ Model '"; Str MODEL_NAME; Lit "' is available."] ;;
         ret (Some true)
       else
         print [Lit "❌ Model '"; Str MODEL_NAME; Lit "' is NOT available."] ;;
         available <- lift (match model_names with
                            | [] => Ret "None"
                            | _ => py_join ", " model_names
                            end) ;;
         print [Lit "   Available models: "; Str available] ;;
         print [Lit "   Run: ollama pull "; Str MODEL_NAME] ;;
         ret (Some false)
     else
       ret None)
    (fun e =>
       if is_Exception e then
         Some (print [Lit "❌ Error checking model availability: "; Exc e] ;;
               ret (Some false))
       else None).

Definition test_model_inference : M bool :=
  print [Lit (nl ++ "🔄 Testing inference with '"); Str MODEL_NAME; Lit "'..."] ;;
  try_except
    (response <- http net generate_request ;;
     if status_code response =? 200 then
       result <- lift (json_of response) ;;
       answer <- lift (py_get result "response" (JStr EmptyString)) ;;
       output <- lift (py_strip answer) ;;
       print [Lit "✅ Model response: "; output] ;;
       ret true
     else
       print [Lit "❌ Inference failed with status code: "; Num (status_code response)] ;;
       ret false)
    (fun e =>
       match e with
       | TimeoutException _ =>
           Some (print [Lit "❌ Inference request timed out."] ;;
                 ret false)
       | _ =>
           if is_Exception e then
             Some (print [Lit "❌ Error during inference: "; Exc e] ;;
                   ret false)
           else None
       end).

(** One line of the metadata report:
    [info.get('details', {}).get(field, 'N/A')]. *)
Definition detail (info : json) (field : string) : result json :=
  match py_get info "details" (JObj []) with
  | Ret details => py_get details field (JStr "N/A")
  | Raise e => Raise e
  end.

Definition print_model_info : M unit :=
  try_except
    (response <- http net show_request ;;
     if status_code response =? 200 then
       info <- lift (json_of response) ;;
       print [Lit (nl ++ "📋 Model Information for '"); Str MODEL_NAME; Lit "':"] ;;
       parameter_size <- lift (detail info "parameter_size") ;;
       print [Lit "   Parameters: "; Val parameter_size] ;;
       quantization_level <- lift (detail info "quantization_level") ;;
       print [Lit "   Quantization: "; Val quantization_level] ;;
       format <- lift (detail info "format") ;;
       print [Lit "   Format: "; Val format] ;;
       family <- lift (detail info "family") ;;
       print [Lit "   Family: "; Val family]
     else
       print [Lit "⚠️  Could not retrieve model info (status: "; Num (status_code response); Lit ")"])
    (fun e =>
       if is_Exception e then
         Some (print [Lit "⚠️  Error retrieving model info: "; Exc e])
       else None).

Definition main : M unit :=
  print [Lit (str_mul "=" 50)] ;;
  print [Lit "  Ollama Configuration Check"] ;;
  print [Lit "  Model: "; Str MODEL_NAME] ;;
  print [Lit "  URL:   "; Str OLLAMA_BASE_URL] ;;
  print [Lit (str_mul "=" 50)] ;;
  server_ok <- check_ollama_status ;;
  if negb server_ok then
    print server_unreachable
  else
    model_ok <- check_model_available ;;
    if negb (truth model_ok) then
      print model_missing
    else
      print_model_info ;;
      inference_ok <- test_model_inference ;;
      print [Lit (nl ++ str_mul "=" 50)] ;;
      (if server_ok && truth model_ok && inference_ok
       then print all_passed
       else print some_failed) ;;
      print [Lit (str_mul "=" 50)].

End Run.

End check_ollama_config.

(** * test_embedder.py *)

Module test_embedder.

Definition MODELS_FILE : string := "llm_models_json.json".
Definition TEST_SENTENCE : string := "Embed this sentence.".

Definition PASS : string := esc ++ "[92mPASS" ++ esc ++ "[0m".
Definition FAIL : string := esc ++ "[91mFAIL" ++ esc ++ "[0m".

Definition print_pass : M unit := print [Lit "  "; Str PASS].
Definition print_fail : M unit := print [Lit "  "; Str FAIL].

(** The placeholder keys [_headers] skips. *)
Definition placeholders : list string :=
  [EmptyString; "none"; "ollama"; "no_key_required"].

(** The loop of [_load_embedder_cfg]: the first entry whose [kind] is
    "embedder". *)
Fixpoint first_embedder (items : list (string * json)) : result (option (string * json)) :=
  match items with
  | [] => Ret None
  | (alias, cfg) :: t =>
      match py_get cfg "kind" JNull with
      | Raise e => Raise e
      | Ret kind =>
          if eq_str kind "embedder" then Ret (Some (alias, cfg)) else first_embedder t
      end
  end.

Definition _headers (lower : string -> string) (cfg : json)
  : result (list (string * string)) :=
  let headers := [("Content-Type", "application/json")] in
  match py_get cfg "api_key" (JStr EmptyString) with
  | Raise e => Raise e
  | Ret api_key =>
      if truthy api_key then
        match py_lower lower api_key with
        | Raise e => Raise e
        | Ret lowered =>
            if negb (in_strs lowered placeholders) then
              match api_key with
              | JStr key => Ret (app headers [("Authorization", "Bearer " ++ key)])
              | _ => Raise AttributeError
              end
            else Ret headers
        end
      else Ret headers
  end.

(** [cfg.get("model") or alias] *)
Definition model_name_of (alias : string) (cfg : json) : result json :=
  match py_get cfg "model" JNull with
  | Raise e => Raise e
  | Ret m => Ret (if truthy m then m else JStr alias)
  end.

(** [cfg["base_url"].rstrip("/")] *)
Definition base_url_of (cfg : json) : result string :=
  match py_getitem cfg "base_url" with
  | Raise e => Raise e
  | Ret u => py_rstrip_slash u
  end.

Definition connection_request (base_url : string) : request :=
  mkRequest GET base_url [] None 10 true.

Definition embeddings_request (url : string) (headers : list (string * string))
    (model_name : json) (sentence : string) : request :=
  mkRequest POST url headers
    (Some (JObj [("model", model_name); ("input", JArr [JStr sentence])])) 30 false.

Definition show_request (url : string) (model_name : json) : request :=
  mkRequest POST url [] (Some (JObj [("name", model_name)])) 15 false.

Section Run.

Variable lower : string -> string.   (* [str.lower] *)
Variable net : nat -> request -> net_result.
Variable fs : string -> load_result.

Definition _load_embedder_cfg : M (string * json) :=
  models <- try_except (load fs MODELS_FILE)
    (fun exc =>
       match exc with
       | FileNotFoundError =>
           Some (print [Lit "[ERROR] '"; Str MODELS_FILE;
                        Lit "' not found. Run from the project root."] ;;
                 raise (SystemExit 1))
       | JSONDecodeError _ =>
           Some (print [Lit "[ERROR] Failed to parse '"; Str MODELS_FILE; Lit "': "; Exc exc] ;;
                 raise (SystemExit 1))
       | _ => None
       end) ;;
  items <- lift (py_items models) ;;
  found <- lift (first_embedder items) ;;
  match found with
  | Some entry => ret entry
  | None =>
      print [Lit "[ERROR] No model with kind='embedder' found in llm_models_json.json."] ;;
      raise (SystemExit 1)
  end.

Definition test_connection (alias : string) (cfg : json) : M bool :=
  base_url <- lift (base_url_of cfg) ;;
  print [Lit (nl ++ "[Test 1] Connection  →  "); Str base_url] ;;
  _ <-! try_except
      (resp <- http net (connection_request base_url) ;;
       print [Lit "  HTTP "; Num (status_code resp); Lit " received."] ;;
       print_pass ;;
       ret (Return true))
      (fun exc =>
         match exc with
         | ConnectError _ => Some (print [Lit "  ConnectError: "; Exc exc] ;; ret (Continue tt))
         | TimeoutException _ =>
             Some (print [Lit "  TimeoutException: "; Exc exc] ;; ret (Continue tt))
         | _ =>
             if is_Exception exc then
               Some (print [Lit "  Unexpected error: "; Exc exc] ;; ret (Continue tt))
             else None
         end) ;;
  print_fail ;;
  ret false.

(** The request both POST checks share: send, [raise_for_status], and the
    two [except] clauses; [hint] is the extra line of the context-window
    check. *)
Definition post_checked (rq : M request) (hint : M unit) : M (flow bool response) :=
  try_except
    (r <- rq ;;
     resp <- http net r ;;
     raise_for_status resp ;;
     ret (Continue resp))
    (fun exc =>
       match exc with
       | HTTPStatusError r =>
           Some (print [Lit "  HTTP error "; Num (status_code r); Lit ": ";
                        Str (take_chars 500 (text r))] ;;
                 hint ;;
                 print_fail ;;
                 ret (Return false))
       | ConnectError _ | TimeoutException _ =>
           Some (print [Lit "  Request failed: "; Exc exc] ;;
                 print_fail ;;
                 ret (Return false))
       | _ => None
       end).

(** [payload = resp.json()] under [except Exception] *)
Definition decoded (resp : response) : M (flow bool json) :=
  try_except
    (payload <- lift (json_of resp) ;;
     ret (Continue payload))
    (fun exc =>
       if is_Exception exc then
         Some (print [Lit "  Failed to parse JSON response: "; Exc exc] ;;
               print_fail ;;
               ret (Return false))
       else None).

Definition test_embedding (alias : string) (cfg : json) (sentence : string) : M bool :=
  model_name <- lift (model_name_of alias cfg) ;;
  base_url <- lift (base_url_of cfg) ;;
  let url := base_url ++ "/v1/embeddings" in
  print [Lit (nl ++ "[Test 2] Embedding  →  POST "); Str url] ;;
  print [Lit "  Model  : "; Val model_name] ;;
  print [Lit ("  Input  : " ++ dquote); Str sentence; Lit dquote] ;;
  resp <-! post_checked
      (headers <- lift (_headers lower cfg) ;;
       ret (embeddings_request url headers model_name sentence))
      (ret tt) ;;
  payload <-! decoded resp ;;
  data <- lift (py_get payload "data" JNull) ;;
  match data with
  | JArr (first :: _) =>
      embedding <- lift (py_get first "embedding" JNull) ;;
      match embedding with
      | JArr (x :: xs) =>
          let values := x :: xs in
          if negb (forallb is_int_or_float (firstn 5 values)) then
            print [Lit "  First 5 embedding values are not numeric: ";
                   Val (JArr (firstn 5 values))] ;;
            print_fail ;;
            ret false
          else
            print [Lit "  Embedding dimension : "; Num (Z.of_nat (length values))] ;;
            print [Lit "  First 5 values      : "; Rounded (firstn 5 values)] ;;
            print_pass ;;
            ret true
      | _ =>
          print [Lit "  'embedding' key missing or empty in first data item."] ;;
          print_fail ;;
          ret false
      end
  | _ =>
      print [Lit "  Unexpected response shape (no 'data' list): "; Val payload] ;;
      print_fail ;;
      ret false
  end.

Definition test_context_window (alias : string) (cfg : json) : M bool :=
  model_name <- lift (model_name_of alias cfg) ;;
  base_url <- lift (base_url_of cfg) ;;
  let url := base_url ++ "/api/show" in
  print [Lit (nl ++ "[Test 3] Context window  →  POST "); Str url] ;;
  print [Lit "  Model : "; Val model_name] ;;
  resp <-! post_checked
      (ret (show_request url model_name))
      (print [Lit "  (Endpoint may not be available for non-Ollama providers.)"]) ;;
  payload <-! decoded resp ;;
  modelinfo <- lift (py_get payload "modelinfo" (JObj [])) ;;
  if negb (truthy modelinfo) then
    print [Lit "  No 'modelinfo' key in response. Full response: "; Val payload] ;;
    print_fail ;;
    ret false
  else
    keys <- lift (py_iter modelinfo) ;;
    ctx_key <- lift (next_endswith ".context_length" keys) ;;
    match ctx_key with
    | None =>
        print [Lit "  No '*.context_length' key found in modelinfo."] ;;
        available <- lift (py_keys modelinfo) ;;
        print [Lit "  Available keys: "; Val (JArr available)] ;;
        print_fail ;;
        ret false
    | Some key =>
        context_length <- lift (py_getitem modelinfo key) ;;
        print [Lit "  Context length key : "; Str key] ;;
        formatted <- lift (format_comma context_length) ;;
        print [Lit "  Max context window : "; formatted; Lit " tokens"] ;;
        print_pass ;;
        ret true
    end.

Definition main : M unit :=
  entry <- _load_embedder_cfg ;;
  let alias := fst entry in
  let cfg := snd entry in
  print [Lit "Embedder alias : '"; Str alias; Lit "'"] ;;
  model <- lift (py_get cfg "model" JNull) ;;
  print [Lit "Model          : "; Val model] ;;
  provider <- lift (py_get cfg "provider" JNull) ;;
  print [Lit "Provider       : "; Val provider] ;;
  base_url <- lift (py_get cfg "base_url" JNull) ;;
  print [Lit "Base URL       : "; Val base_url] ;;
  r1 <- test_connection alias cfg ;;
  r2 <- test_embedding alias cfg TEST_SENTENCE ;;
  r3 <- test_context_window alias cfg ;;
  let results := [r1; r2; r3] in
  let passed := py_sum results in
  let total := Z.of_nat (length results) in
  print [Lit nl; Str (str_mul "─" 40)] ;;
  print [Lit "Results: "; Num passed; Lit "/"; Num total; Lit " test(s) passed."] ;;
  if passed <? total then raise (SystemExit 1) else ret tt.

End Run.

End test_embedder.


(** * Specification vocabulary *)

(** A result that is not [SystemExit]: a value, or an exception that
    [except Exception] catches. *)
Definition ordinary {A} (r : result A) : Prop :=
  forall code, r <> Raise (SystemExit code).

(** ** Vocabulary of the health checker's specification *)

(** The liveness probe fails: a response that is not 200, a refused
    connection or a timeout. *)
Definition liveness_failure (o : net_result) : Prop :=
  match o with
  | Responded r => status_code r <> 200
  | Unreachable _ | TimedOut _ => True
  | Broken _ => False
  end.

(** The metadata request fails: anything but a 200 response. *)
Definition metadata_failure (o : net_result) : Prop :=
  match o with
  | Responded r => status_code r <> 200
  | _ => True
  end.

(** A warning line starts with the warning sign. *)
Definition is_warning (l : line) : Prop :=
  exists s rest, l = Lit s :: rest /\ String.prefix "⚠️" s = true.

(** [name] contains [needle] as a substring. *)
Definition is_substring (needle name : string) : Prop :=
  exists before rest, name = before ++ needle ++ rest.

(** A model descriptor of the tag listing and its name. *)
Definition named (descriptor : json) (name : string) : Prop :=
  exists fields, descriptor = JObj fields /\ lookup "name" fields = Some (JStr name).

(** The body of a tag-listing response and the names it lists. *)
Definition tag_listing (body : json) (names : list string) : Prop :=
  exists fields descriptors,
    body = JObj fields
    /\ lookup "models" fields = Some (JArr descriptors)
    /\ Forall2 named descriptors names.

(** What the availability check prints when the model is not listed. *)
Definition not_available_report (names : list string) : list line :=
  [ [Lit "❌ Model '"; Str check_ollama_config.MODEL_NAME; Lit "' is NOT available."];
    [Lit "   Available models: ";
     Str (match names with [] => "None" | _ => join ", " names end)];
    [Lit "   Run: ollama pull "; Str check_ollama_config.MODEL_NAME] ].

(** Sample networks. *)
Definition ok (body : json) : net_result :=
  Responded (mkResponse 200 EmptyString (inr body)).

Definition status_only (status : Z) : net_result :=
  Responded (mkResponse status "<html>" (inl "Expecting value")).

Definition net_down : nat -> request -> net_result :=
  fun _ _ => Unreachable "connection refused".

Definition net_html : nat -> request -> net_result :=
  fun _ _ => status_only 200.

(** Liveness answers 200, every later request 500. *)
Definition net_500_after_liveness : nat -> request -> net_result :=
  fun n _ => match n with O => status_only 200 | _ => status_only 500 end.

Definition listing_of (names : list string) : json :=
  JObj [("models", JArr (map (fun name => JObj [("name", JStr name)]) names))].

Definition net_lists (names : list string) : nat -> request -> net_result :=
  fun _ _ => ok (listing_of names).

(** ** Vocabulary of the embedder tester's specification *)

(** A configuration entry with the embedder role. *)
Definition is_embedder (cfg : json) : Prop :=
  exists fields, cfg = JObj fields /\ lookup "kind" fields = Some (JStr "embedder").

(** The decoded configuration file has an entry with the embedder role. *)
Definition has_embedder (models : json) : Prop :=
  exists entries alias cfg,
    models = JObj entries /\ In (alias, cfg) entries /\ is_embedder cfg.

(** The three diagnostics of [_load_embedder_cfg]. *)
Definition not_found_line : line :=
  [Lit "[ERROR] '"; Str test_embedder.MODELS_FILE;
   Lit "' not found. Run from the project root."].
Definition parse_failed_line (msg : string) : line :=
  [Lit "[ERROR] Failed to parse '"; Str test_embedder.MODELS_FILE; Lit "': ";
   Exc (JSONDecodeError msg)].
Definition no_embedder_line : line :=
  [Lit "[ERROR] No model with kind='embedder' found in llm_models_json.json."].

(** The process ends with a diagnostic: one of the three [ERROR] lines
    followed by [sys.exit(1)], or an uncaught exception, for which the
    interpreter prints a traceback. *)
Definition diagnosed (out : result unit * effects) : Prop :=
  (fst out = Raise (SystemExit 1)
   /\ (stdout (snd out) = [not_found_line]
       \/ (exists msg, stdout (snd out) = [parse_failed_line msg])
       \/ stdout (snd out) = [no_embedder_line]))
  \/ (exists e, fst out = Raise e /\ is_Exception e = true /\ stdout (snd out) = []).

(** The credential an entry configures: none when [api_key] is absent or
    null. *)
Inductive api_key_is (fields : list (string * json)) : string -> Prop :=
| key_absent : lookup "api_key" fields = None -> api_key_is fields EmptyString
| key_null : lookup "api_key" fields = Some JNull -> api_key_is fields EmptyString
| key_str key : lookup "api_key" fields = Some (JStr key) -> api_key_is fields key.

(** A real credential: not empty, and its lowercase form is no placeholder. *)
Definition real_credential (lower : string -> string) (key : string) : Prop :=
  key <> EmptyString /\ ~ In (lower key) test_embedder.placeholders.

Definition real_credentialb (lower : string -> string) (key : string) : bool :=
  negb (String.eqb key EmptyString) && negb (in_strs (lower key) test_embedder.placeholders).

(** The value of a header of a request. *)
Fixpoint header (name : string) (headers : list (string * string)) : option string :=
  match headers with
  | [] => None
  | (k, v) :: t => if String.eqb name k then Some v else header name t
  end.

(** A JSON number. *)
Definition is_number (v : json) : bool :=
  match v with
  | JInt _ | JFloat _ _ => true
  | _ => false
  end.

(** An item of [data] holding a non-empty embedding vector that satisfies
    [p]. *)
Definition holds_vector (p : list json -> Prop) (item : json) : Prop :=
  exists fields x xs,
    item = JObj fields
    /\ lookup "embedding" fields = Some (JArr (x :: xs))
    /\ p (x :: xs).

(** A decoded body with a non-empty [data] list whose items each hold such
    a vector. *)
Definition embeddings_shape (p : list json -> Prop) (body : json) : Prop :=
  exists fields item items,
    body = JObj fields
    /\ lookup "data" fields = Some (JArr (item :: items))
    /\ Forall (holds_vector p) (item :: items).

Definition numeric (values : list json) : Prop :=
  Forall (fun v => is_number v = true) values.

Definition first_five_numeric (values : list json) : Prop :=
  numeric (firstn 5 values).

(** What the spot check of [test_embedding] accepts. *)
Definition first_five_int_or_float (values : list json) : Prop :=
  forallb is_int_or_float (firstn 5 values) = true.

Definition has_suffix (suffix s : string) : Prop :=
  exists before, s = before ++ suffix.

(** The first entry of a mapping whose key ends in [suffix]. *)
Definition first_with_suffix (suffix : string) (mapping : list (string * json))
  : option (string * json) :=
  find (fun kv => endswith (fst kv) suffix) mapping.

(** Sample configurations and bodies. *)
Definition sample_cfg : list (string * json) :=
  [("kind", JStr "embedder"); ("model", JStr "nomic-embed-text");
   ("provider", JStr "ollama"); ("base_url", JStr "http://localhost:11434/");
   ("api_key", JStr "ollama")].

Definition keyed_cfg : list (string * json) :=
  [("kind", JStr "embedder"); ("model", JStr "text-embedding-3-small");
   ("base_url", JStr "https://api.example.com"); ("api_key", JStr "sk-123")].

(** An entry whose key is a placeholder in capitals. *)
Definition shouting_cfg : list (string * json) :=
  [("kind", JStr "embedder"); ("base_url", JStr "http://localhost:11434");
   ("api_key", JStr "NONE")].

(** A modelinfo whose context length is a text. *)
Definition text_valued_modelinfo : list (string * json) :=
  [("llama.context_length", JStr "8192")].

Definition embedding_body (values : list json) : json :=
  JObj [("data", JArr [JObj [("embedding", JArr values)]])].

Definition three_values : list json := [JFloat 1 (-1); JFloat 2 (-1); JFloat 3 (-1)].

Definition modelinfo_body (modelinfo : list (string * json)) : json :=
  JObj [("modelinfo", JObj modelinfo)].

Definition net_answers (o : net_result) : nat -> request -> net_result :=
  fun _ _ => o.

Definition fs_missing : string -> load_result := fun _ => Missing.

Definition fs_holds (models : json) : string -> load_result := fun _ => Loaded models.

(** The lines the embedding check prints before its request. *)
Definition embedding_banner (url : string) (model_name : json) (sentence : string)
  : list line :=
  [ [Lit (nl ++ "[Test 2] Embedding  →  POST "); Str url];
    [Lit "  Model  : "; Val model_name];
    [Lit ("  Input  : " ++ dquote); Str sentence; Lit dquote] ].

Definition dimension_line (values : list json) : line :=
  [Lit "  Embedding dimension : "; Num (Z.of_nat (length values))].

Definition first_values_line (values : list json) : line :=
  [Lit "  First 5 values      : "; Rounded (firstn 5 values)].

Definition six_values : list json :=
  [JInt 1; JInt 2; JInt 3; JInt 4; JInt 5; JStr "x"].

(** The lines of the context-window check. *)
Definition context_banner (url : string) (model_name : json) : list line :=
  [ [Lit (nl ++ "[Test 3] Context window  →  POST "); Str url];
    [Lit "  Model : "; Val model_name] ].

Definition context_key_line (key : string) : line :=
  [Lit "  Context length key : "; Str key].

Definition context_window_line (value : json) : line :=
  [Lit "  Max context window : "; Comma value; Lit " tokens"].

(** ** Further vocabulary of the health checker *)

(** The banner [main] prints before its first check. *)
Definition health_banner : list line :=
  [ [Lit (str_mul "=" 50)];
    [Lit "  Ollama Configuration Check"];
    [Lit "  Model: "; Str check_ollama_config.MODEL_NAME];
    [Lit "  URL:   "; Str check_ollama_config.OLLAMA_BASE_URL];
    [Lit (str_mul "=" 50)] ].

Definition server_running_line : line := [Lit "✅ Ollama server is running."].

(** The exception a failed request raises. *)
Definition client_error (o : net_result) : option exn :=
  match o with
  | Responded _ => None
  | Unreachable msg => Some (ConnectError msg)
  | TimedOut msg => Some (TimeoutException msg)
  | Broken msg => Some (TransportError msg)
  end.

(** A field of a mapping, or the default when the key is missing. *)
Definition field_or (default : json) (key : string) (fields : list (string * json)) : json :=
  match lookup key fields with
  | Some v => v
  | None => default
  end.

(** The report [print_model_info] prints from a [details] mapping. *)
Definition model_info_report (details : list (string * json)) : list line :=
  [ [Lit (nl ++ "📋 Model Information for '"); Str check_ollama_config.MODEL_NAME; Lit "':"];
    [Lit "   Parameters: "; Val (field_or (JStr "N/A") "parameter_size" details)];
    [Lit "   Quantization: "; Val (field_or (JStr "N/A") "quantization_level" details)];
    [Lit "   Format: "; Val (field_or (JStr "N/A") "format" details)];
    [Lit "   Family: "; Val (field_or (JStr "N/A") "family" details)] ].

Definition is_mapping (v : json) : bool :=
  match v with
  | JObj _ => true
  | _ => false
  end.

(** ** Further vocabulary of the embedder tester *)

(** An entry that is a mapping and is not tagged as an embedder. *)
Definition other_entry (entry : string * json) : Prop :=
  exists fields, snd entry = JObj fields /\ lookup "kind" fields <> Some (JStr "embedder").

(** What [main] prints about the entry it loaded. *)
Definition entry_banner (alias : string) (fields : list (string * json)) : list line :=
  [ [Lit "Embedder alias : '"; Str alias; Lit "'"];
    [Lit "Model          : "; Val (field_or JNull "model" fields)];
    [Lit "Provider       : "; Val (field_or JNull "provider" fields)];
    [Lit "Base URL       : "; Val (field_or JNull "base_url" fields)] ].

Definition content_type : string * string := ("Content-Type", "application/json").

Definition is_str (v : json) : bool :=
  match v with
  | JStr _ => true
  | _ => false
  end.

(** The model a request names: the configured one, or the alias when none
    is configured. *)
Definition requested_model (alias : string) (fields : list (string * json)) : json :=
  if truthy (field_or JNull "model" fields)
  then field_or JNull "model" fields
  else JStr alias.

(** The request ends without a response, in a way the POST checks catch. *)
Definition refused_or_timed_out (o : net_result) : Prop :=
  match o with
  | Unreachable _ | TimedOut _ => True
  | _ => False
  end.

Definition results_line (passed : Z) : line :=
  [Lit "Results: "; Num passed; Lit "/"; Num 3; Lit " test(s) passed."].

(** A configuration file with one entry. *)
Definition fs_entry (alias : string) (fields : list (string * json)) : string -> load_result :=
  fs_holds (JObj [(alias, JObj fields)]).

Definition fail_line : line := [Lit "  "; Str test_embedder.FAIL].

Definition http_error_line (r : response) : line :=
  [Lit "  HTTP error "; Num (status_code r); Lit ": "; Str (take_chars 500 (text r))].

(** A non-empty list. *)
Definition is_filled_list (v : json) : bool :=
  match v with
  | JArr (_ :: _) => true
  | _ => false
  end.

(** The exception the format with thousands separators raises on a value
    that is no number. *)
Definition format_error (v : json) : exn :=
  match v with
  | JStr _ => ValueError
  | _ => TypeError
  end.

(** * Properties *)

(** ** Strings *)

Lemma prefix_spec (s1 s2 : string) :
  String.prefix s1 s2 = true <-> exists rest, s2 = s1 ++ rest.
Proof.
  revert s1. induction s2 as [|b s2 IH]; intros [|a s1]; simpl.
  - split; [exists EmptyString; reflexivity | reflexivity].
  - split; [discriminate | intros [rest H]; discriminate].
  - split; [exists (String b s2); reflexivity | reflexivity].
  - destruct (ascii_dec a b) as [->|Hneq].
    + rewrite IH. split; intros [rest H]; exists rest.
      * now rewrite H.
      * now inversion H.
    + split; [discriminate | intros [rest H]; inversion H; congruence].
Qed.

(** [contains] decides "is a substring of". *)
Lemma contains_spec (needle hay : string) :
  contains needle hay = true <-> exists before rest, hay = before ++ needle ++ rest.
Proof.
  induction hay as [|c hay IH]; cbn [contains].
  - rewrite orb_false_r, prefix_spec. split.
    + intros [rest H]. exists EmptyString, rest. exact H.
    + intros [[|? ?] [rest H]]; [exists rest; exact H | discriminate].
  - rewrite orb_true_iff, prefix_spec, IH. split.
    + intros [[rest H]|[before [rest H]]].
      * exists EmptyString, rest. exact H.
      * exists (String c before), rest. simpl. now rewrite H.
    + intros [[|c' before] [rest H]].
      * left. exists rest. exact H.
      * right. exists before, rest. simpl in H. now inversion H.
Qed.

(** [endswith] decides "has this suffix". *)
Lemma endswith_spec (s suffix : string) :
  endswith s suffix = true <-> exists before, s = before ++ suffix.
Proof.
  induction s as [|c s IH]; cbn [endswith].
  - rewrite orb_false_r, String.eqb_eq. split.
    + intros <-. exists EmptyString. reflexivity.
    + intros [[|? ?] H]; [exact H | discriminate].
  - rewrite orb_true_iff, String.eqb_eq, IH. split.
    + intros [<-|[before H]].
      * exists EmptyString. reflexivity.
      * exists (String c before). simpl. now rewrite H.
    + intros [[|c' before] H].
      * left. exact H.
      * right. exists before. simpl in H. now inversion H.
Qed.

(** ** Python's operations never raise [SystemExit] *)

Lemma ordinary_json_of r : ordinary (json_of r).
Proof. unfold ordinary, json_of. destruct (resp_json r); discriminate. Qed.

Lemma ordinary_py_get d k v : ordinary (py_get d k v).
Proof. unfold ordinary. destruct d; discriminate. Qed.

Lemma ordinary_py_getitem d k : ordinary (py_getitem d k).
Proof. unfold ordinary. destruct d; try discriminate. simpl. destruct (lookup k o); discriminate. Qed.

Lemma ordinary_py_iter v : ordinary (py_iter v).
Proof. unfold ordinary. destruct v; discriminate. Qed.

Lemma ordinary_py_keys v : ordinary (py_keys v).
Proof. unfold ordinary. destruct v; discriminate. Qed.

Lemma ordinary_py_in s v : ordinary (py_in s v).
Proof. unfold ordinary. destruct v; discriminate. Qed.

Lemma ordinary_py_strip v : ordinary (py_strip v).
Proof. unfold ordinary. destruct v; discriminate. Qed.

Lemma ordinary_py_lower lower v : ordinary (py_lower lower v).
Proof. unfold ordinary. destruct v; discriminate. Qed.

Lemma ordinary_py_rstrip_slash v : ordinary (py_rstrip_slash v).
Proof. unfold ordinary. destruct v; discriminate. Qed.

Lemma ordinary_format_comma v : ordinary (format_comma v).
Proof. unfold ordinary. destruct v; discriminate. Qed.

Lemma ordinary_py_map {A} (f : json -> result A) l :
  (forall x, ordinary (f x)) -> ordinary (py_map f l).
Proof.
  intros Hf code. induction l as [|x l IH]; simpl; [discriminate|].
  destruct (f x) eqn:Hx.
  - destruct (py_map f l); [discriminate|]. intros H. apply IH. congruence.
  - intros H. apply (Hf x code). congruence.
Qed.

Lemma ordinary_py_any f l :
  (forall x, ordinary (f x)) -> ordinary (py_any f l).
Proof.
  intros Hf code. induction l as [|x l IH]; simpl; [discriminate|].
  destruct (f x) as [[|]|e] eqn:Hx; [discriminate | exact IH |].
  intros H. apply (Hf x code). congruence.
Qed.

Lemma ordinary_py_join sep l : ordinary (py_join sep l).
Proof.
  intros code. unfold py_join.
  destruct (py_map _ l) eqn:Hm; [discriminate|].
  intros H. revert Hm. replace e with (SystemExit code) by congruence.
  apply ordinary_py_map. intros [] c; discriminate.
Qed.

Lemma ordinary_next_endswith suffix keys : ordinary (next_endswith suffix keys).
Proof.
  intros code. induction keys as [|k keys IH]; simpl; [discriminate|].
  destruct k; try discriminate. destruct (endswith s suffix); [discriminate | exact IH].
Qed.

Lemma ordinary_detail info field : ordinary (check_ollama_config.detail info field).
Proof.
  intros code. unfold check_ollama_config.detail.
  destruct (py_get info _ _) eqn:H.
  - apply ordinary_py_get.
  - intros H'. apply (ordinary_py_get info "details" (JObj []) code). congruence.
Qed.

Create HintDb pyexn.
#[export] Hint Resolve ordinary_json_of ordinary_py_get ordinary_py_getitem
  ordinary_py_iter ordinary_py_keys ordinary_py_in ordinary_py_strip
  ordinary_py_lower ordinary_py_rstrip_slash ordinary_format_comma
  ordinary_py_join ordinary_next_endswith ordinary_detail : pyexn.

(** ** Running the monad *)

(** Unfolds the monad's combinators and splits on the next value a
    computation branches on, leaving Python's operations folded. *)
Ltac run_simpl :=
  unfold bind_flow, bind, after, try_except, lift, ret, raise, print, http, load;
  cbn beta iota zeta delta [fst snd then_effects stdout calls no_effects app length
                            Nat.add is_Exception negb andb].

(** An equation saying that one of Python's operations raised [SystemExit]. *)
Ltac no_exit :=
  match goal with
  | H : ?x = Raise (SystemExit ?c) |- _ =>
      exfalso; revert H; generalize c; change (ordinary x);
      solve [ auto with pyexn
            | apply ordinary_py_map; auto with pyexn
            | apply ordinary_py_any; auto with pyexn
            | intro; discriminate ]
  end.

Ltac run_step :=
  match goal with
  | |- context [is_Exception ?e] => is_var e; destruct e
  | |- context [match ?x with _ => _ end] =>
      is_var x;
      match type of x with
      | exn => destruct x
      | list json => destruct x
      | bool => destruct x
      | json => destruct x
      end
  | |- context [match ?x with _ => _ end] =>
      match type of x with
      | result _ => destruct x eqn:?
      | bool => destruct x eqn:?
      | net_result => destruct x eqn:?
      | load_result => destruct x eqn:?
      | option _ => destruct x eqn:?
      | flow _ _ => destruct x eqn:?
      end
  | |- context [if ?x then _ else _] => destruct x eqn:?
  end.

Ltac run_all := run_simpl; repeat (run_step; run_simpl; try no_exit).

Import check_ollama_config.

Lemma check_ollama_status_calls net n :
  calls (snd (check_ollama_status net n)) = [tags_request].
Proof. unfold check_ollama_status. run_all; reflexivity. Qed.

Lemma check_model_available_run net n :
  calls (snd (check_model_available net n)) = [tags_request]
  /\ (exists r, fst (check_model_available net n) = Ret r)
  /\ ~ In all_passed (stdout (snd (check_model_available net n))).
Proof.
  unfold check_model_available. run_all; (split; [reflexivity | split; [eexists; reflexivity |]]);
  simpl; intuition discriminate.
Qed.

Lemma check_ollama_status_quiet net n :
  ~ In all_passed (stdout (snd (check_ollama_status net n))).
Proof. unfold check_ollama_status. run_all; simpl; intuition discriminate. Qed.

Lemma print_model_info_run net n :
  fst (print_model_info net n) = Ret tt
  /\ calls (snd (print_model_info net n)) = [show_request]
  /\ ~ In all_passed (stdout (snd (print_model_info net n))).
Proof.
  unfold print_model_info.
  run_all; (split; [reflexivity | split; [reflexivity |]]); simpl; intuition discriminate.
Qed.

Lemma test_model_inference_run net n :
  (exists b, fst (test_model_inference net n) = Ret b)
  /\ calls (snd (test_model_inference net n)) = [generate_request]
  /\ ~ In all_passed (stdout (snd (test_model_inference net n))).
Proof.
  unfold test_model_inference.
  run_all; (split; [eexists; reflexivity | split; [reflexivity |]]); simpl; intuition discriminate.
Qed.


(** Each check asks the network one thing only. *)
Lemma check_ollama_status_ext net net' n :
  net n tags_request = net' n tags_request ->
  check_ollama_status net n = check_ollama_status net' n.
Proof. intros H. unfold check_ollama_status. run_simpl. rewrite H. reflexivity. Qed.

Lemma check_model_available_ext net net' n :
  net n tags_request = net' n tags_request ->
  check_model_available net n = check_model_available net' n.
Proof. intros H. unfold check_model_available. run_simpl. rewrite H. reflexivity. Qed.

Lemma test_model_inference_ext net net' n :
  net n generate_request = net' n generate_request ->
  test_model_inference net n = test_model_inference net' n.
Proof. intros H. unfold test_model_inference. run_simpl. rewrite H. reflexivity. Qed.

(** What [main] prints last tells the three results apart. *)
Lemma main_verdict net :
  In all_passed (stdout (snd (run (main net)))) <->
  fst (check_ollama_status net 0%nat) = Ret true
  /\ fst (check_model_available net 1%nat) = Ret (Some true)
  /\ fst (test_model_inference net 3%nat) = Ret true.
Proof.
  pose proof (check_ollama_status_calls net 0%nat) as Hs.
  pose proof (check_ollama_status_quiet net 0%nat) as Hsq.
  destruct (check_model_available_run net 1%nat) as (Ha & [ra Hra] & Haq).
  destruct (print_model_info_run net 2%nat) as (Hi & Hic & Hiq).
  destruct (test_model_inference_run net 3%nat) as ([b Hb] & Htc & Htq).
  unfold run, main. run_simpl.
  destruct (check_ollama_status net 0%nat) as [[[|]|e] [out1 c1]];
    simpl in Hs, Hsq; subst c1; run_simpl.
  - destruct (check_model_available net 1%nat) as [r2 [out2 c2]];
      simpl in Ha, Hra, Haq; subst c2 r2; run_simpl.
    destruct ra as [[|]|]; cbn [truth negb]; run_simpl.
    + destruct (print_model_info net 2%nat) as [r3 [out3 c3]];
        simpl in Hi, Hic, Hiq; subst c3 r3; run_simpl.
      destruct (test_model_inference net 3%nat) as [r4 [out4 c4]];
        simpl in Hb, Htc, Htq; subst c4 r4; run_simpl.
      destruct b; run_simpl; simpl; rewrite ?in_app_iff; simpl;
        intuition (discriminate || congruence).
    + simpl; rewrite ?in_app_iff; simpl; intuition (discriminate || congruence).
    + simpl; rewrite ?in_app_iff; simpl; intuition (discriminate || congruence).
  - simpl; rewrite ?in_app_iff; simpl; intuition (discriminate || congruence).
  - simpl; rewrite ?in_app_iff; simpl; intuition (discriminate || congruence).
Qed.

(** ** The health checker *)

(** C6: the liveness check returns True exactly when the GET on the
    tag-listing endpoint is answered with status 200, whatever the body; a
    refused connection, a timeout or another status make it return False,
    and then [main] stops: it has issued that one request, prints that the
    server is not reachable and returns. *)
Theorem liveness_iff_status_200 (net : nat -> request -> net_result) (n : nat) :
  (fst (check_ollama_status net n) = Ret true <->
   exists r, net n tags_request = Responded r /\ status_code r = 200)
  /\ (liveness_failure (net n tags_request) ->
      fst (check_ollama_status net n) = Ret false)
  /\ (fst (run (check_ollama_status net)) = Ret false ->
      fst (run (main net)) = Ret tt
      /\ calls (snd (run (main net))) = [tags_request]
      /\ last (stdout (snd (run (main net)))) [] = server_unreachable).
Proof.
  split; [|split].
  - unfold check_ollama_status. run_simpl.
    destruct (net n tags_request) as [r|msg|msg|msg]; run_simpl.
    + destruct (status_code r =? 200) eqn:Hs; run_simpl.
      * split; [intros _; exists r; split; [reflexivity | now apply Z.eqb_eq] | reflexivity].
      * split; [discriminate|]. intros [r' [Hr H200]]. inversion Hr; subst r'.
        apply Z.eqb_eq in H200. congruence.
    + split; [discriminate | intros [r [Hr _]]; discriminate].
    + split; [discriminate | intros [r [Hr _]]; discriminate].
    + split; [discriminate | intros [r [Hr _]]; discriminate].
  - unfold check_ollama_status. run_simpl.
    destruct (net n tags_request) as [r|msg|msg|msg]; run_simpl; simpl.
    + intros Hne. apply Z.eqb_neq in Hne. rewrite Hne. reflexivity.
    + reflexivity.
    + reflexivity.
    + contradiction.
  - unfold run, main, check_ollama_status. run_simpl.
    destruct (net O tags_request) as [r|msg|msg|msg]; run_simpl.
    + destruct (status_code r =? 200) eqn:Hs; run_simpl; [discriminate|].
      intros _. repeat split.
    + intros _. repeat split.
    + intros _. repeat split.
    + discriminate.
Qed.

Lemma liveness_iff_status_200_witness :
  fst (check_ollama_status net_html 0%nat) = Ret true
  /\ fst (run (main net_down)) = Ret tt.
Proof.
  split.
  - apply (proj1 (liveness_iff_status_200 net_html 0%nat)).
    eexists. split; reflexivity.
  - apply (proj2 (proj2 (liveness_iff_status_200 net_down 0%nat))).
    reflexivity.
Defined.

(** C5: [main] announces that all checks passed exactly when the liveness,
    the availability and the inference check all returned True; what the
    metadata request is answered changes nothing of that; [print_model_info]
    always returns, and when its request fails it prints one warning line
    and nothing else. *)
Theorem verdict_is_conjunction (net : nat -> request -> net_result) :
  (In all_passed (stdout (snd (run (main net)))) <->
   fst (check_ollama_status net 0%nat) = Ret true
   /\ fst (check_model_available net 1%nat) = Ret (Some true)
   /\ fst (test_model_inference net 3%nat) = Ret true)
  /\ (forall net' : nat -> request -> net_result,
        (forall k rq, rq <> show_request -> net' k rq = net k rq) ->
        (In all_passed (stdout (snd (run (main net')))) <->
         In all_passed (stdout (snd (run (main net))))))
  /\ (forall n, fst (print_model_info net n) = Ret tt)
  /\ (forall n, metadata_failure (net n show_request) ->
        exists l, stdout (snd (print_model_info net n)) = [l] /\ is_warning l).
Proof.
  split; [apply main_verdict | split; [| split]].
  - intros net' Hagree. rewrite !main_verdict.
    rewrite (check_ollama_status_ext net' net 0%nat) by (apply Hagree; discriminate).
    rewrite (check_model_available_ext net' net 1%nat) by (apply Hagree; discriminate).
    rewrite (test_model_inference_ext net' net 3%nat) by (apply Hagree; discriminate).
    reflexivity.
  - intros n. apply print_model_info_run.
  - intros n. unfold print_model_info. run_simpl.
    destruct (net n show_request) as [r|msg|msg|msg]; run_simpl; simpl.
    + intros Hne. apply Z.eqb_neq in Hne. rewrite Hne. run_simpl.
      eexists. split; [reflexivity|]. do 2 eexists. split; reflexivity.
    + intros _. eexists. split; [reflexivity|]. do 2 eexists. split; reflexivity.
    + intros _. eexists. split; [reflexivity|]. do 2 eexists. split; reflexivity.
    + intros _. eexists. split; [reflexivity|]. do 2 eexists. split; reflexivity.
Qed.

Lemma verdict_is_conjunction_witness :
  exists l, stdout (snd (print_model_info net_down 2%nat)) = [l] /\ is_warning l.
Proof.
  apply (proj2 (proj2 (proj2 (verdict_is_conjunction net_down))) 2%nat).
  exact I.
Defined.

(** C2: when the tag-listing endpoint answers with another status than 200,
    [check_model_available] falls off its end: it returns None, which is no
    boolean, and prints nothing. *)
Theorem check_model_available_non_200 (net : nat -> request -> net_result)
    (n : nat) (r : response) :
  net n tags_request = Responded r ->
  status_code r <> 200 ->
  check_model_available net n = (Ret None, mkEffects [] [tags_request]).
Proof.
  intros Hr Hne. unfold check_model_available. run_simpl. rewrite Hr.
  apply Z.eqb_neq in Hne. rewrite Hne. reflexivity.
Qed.

Lemma check_model_available_non_200_witness :
  check_model_available net_500_after_liveness 1%nat
  = (Ret None, mkEffects [] [tags_request]).
Proof.
  apply (check_model_available_non_200 net_500_after_liveness 1%nat
           (mkResponse 500 "<html>" (inl "Expecting value"))).
  - reflexivity.
  - discriminate.
Defined.

Lemma py_map_names (descriptors : list json) (names : list string) :
  Forall2 named descriptors names ->
  py_map (fun model => py_get model "name" (JStr EmptyString)) descriptors
  = Ret (map JStr names).
Proof.
  induction 1 as [|d name ds names [fields [-> Hname]] _ IH]; [reflexivity|].
  cbn [py_map py_get]. rewrite Hname, IH. reflexivity.
Qed.

Lemma py_any_in_names (needle : string) (names : list string) :
  py_any (py_in needle) (map JStr names) = Ret (existsb (contains needle) names).
Proof.
  induction names as [|name names IH]; [reflexivity|].
  cbn [map py_any py_in existsb]. destruct (contains needle name); [reflexivity | exact IH].
Qed.

Lemma py_join_names (sep : string) (names : list string) :
  py_join sep (map JStr names) = Ret (join sep names).
Proof.
  unfold py_join.
  assert (H : py_map (fun x => match x with JStr s => Ret s | _ => Raise TypeError end)
                (map JStr names) = Ret names).
  { induction names as [|name names IH]; [reflexivity|].
    cbn [map py_map]. rewrite IH. reflexivity. }
  rewrite H. reflexivity.
Qed.

Lemma some_name_contains (needle : string) (names : list string) :
  existsb (contains needle) names = true <->
  exists name, In name names /\ is_substring needle name.
Proof.
  rewrite existsb_exists. unfold is_substring.
  split; intros [name [Hin H]]; exists name; (split; [exact Hin|]);
    now apply contains_spec.
Qed.

(** C7: for a 200 response that lists model descriptors, the availability
    check returns True exactly when the name of some descriptor contains the
    configured model identifier as a substring; otherwise it returns False
    and prints that the model is not available, the listed names joined by
    commas (or None when there is none) and the pull command to run. *)
Theorem availability_iff_name_contains (net : nat -> request -> net_result)
    (n : nat) (r : response) (body : json) (names : list string) :
  net n tags_request = Responded r ->
  status_code r = 200 ->
  resp_json r = inr body ->
  tag_listing body names ->
  (fst (check_model_available net n) = Ret (Some true) <->
   exists name, In name names /\ is_substring MODEL_NAME name)
  /\ ((~ exists name, In name names /\ is_substring MODEL_NAME name) ->
      check_model_available net n
      = (Ret (Some false), mkEffects (not_available_report names) [tags_request])).
Proof.
  intros Hr H200 Hbody (fields & descriptors & -> & Hmodels & Hnames).
  rewrite <- some_name_contains.
  assert (Hrun : check_model_available net n =
                 if existsb (contains MODEL_NAME) names
                 then (Ret (Some true),
                       mkEffects [[Lit "✅ Model '"; Str MODEL_NAME; Lit "' is available."]]
                         [tags_request])
                 else (Ret (Some false),
                       mkEffects (not_available_report names) [tags_request])).
  { unfold check_model_available. run_simpl. rewrite Hr.
    apply Z.eqb_eq in H200. rewrite H200.
    unfold json_of. rewrite Hbody. unfold py_get at 1. rewrite Hmodels.
    unfold py_iter. cbn beta iota.
    rewrite (py_map_names _ _ Hnames), py_any_in_names.
    destruct (existsb (contains MODEL_NAME) names); [reflexivity|].
    destruct names as [|name names]; [reflexivity|].
    change (map JStr (name :: names)) with (JStr name :: map JStr names).
    cbn beta iota.
    change (JStr name :: map JStr names) with (map JStr (name :: names)).
    rewrite py_join_names. reflexivity. }
  rewrite Hrun.
  destruct (existsb (contains MODEL_NAME) names).
  - split; [split; intros _; reflexivity | intros H; exfalso; apply H; reflexivity].
  - split; [split; discriminate | reflexivity].
Qed.

Lemma listing_of_lists (names : list string) : tag_listing (listing_of names) names.
Proof.
  exists [("models", JArr (map (fun name => JObj [("name", JStr name)]) names))].
  eexists. split; [reflexivity | split; [reflexivity|]].
  induction names as [|name names IH]; constructor; [|exact IH].
  eexists. split; reflexivity.
Qed.

Lemma availability_iff_name_contains_witness :
  fst (check_model_available (net_lists ["llama3:8b"; "qwen3:4b-q4_K_M"]) 1%nat)
  = Ret (Some true)
  /\ check_model_available (net_lists ["llama3:8b"; "mistral:7b"]) 1%nat
     = (Ret (Some false),
        mkEffects (not_available_report ["llama3:8b"; "mistral:7b"]) [tags_request]).
Proof.
  split.
  - apply (proj1 (availability_iff_name_contains
                    (net_lists ["llama3:8b"; "qwen3:4b-q4_K_M"]) 1%nat _ _ _
                    eq_refl eq_refl eq_refl (listing_of_lists _))).
    exists "qwen3:4b-q4_K_M". split; [right; left; reflexivity|].
    exists EmptyString, "-q4_K_M". reflexivity.
  - apply (proj2 (availability_iff_name_contains
                    (net_lists ["llama3:8b"; "mistral:7b"]) 1%nat _ _ _
                    eq_refl eq_refl eq_refl (listing_of_lists _))).
    rewrite <- some_name_contains. discriminate.
Defined.

(** ** The embedder tester *)

Import test_embedder.

Lemma base_url_of_str fields u :
  lookup "base_url" fields = Some (JStr u) ->
  base_url_of (JObj fields) = Ret (rstrip_slash u).
Proof. intros H. unfold base_url_of, py_getitem. rewrite H. reflexivity. Qed.

Lemma first_embedder_none (entries : list (string * json)) :
  (forall alias cfg, In (alias, cfg) entries -> ~ is_embedder cfg) ->
  first_embedder entries = Ret None \/ first_embedder entries = Raise AttributeError.
Proof.
  induction entries as [|[alias cfg] entries IH]; intros Hno; [left; reflexivity|].
  cbn [first_embedder].
  destruct cfg as [| | | | |l|fields]; try (right; reflexivity).
  cbn [py_get].
  destruct (lookup "kind" fields) as [kind|] eqn:Hkind.
  - destruct (eq_str kind "embedder") eqn:Heq.
    + exfalso. apply (Hno alias (JObj fields)); [left; reflexivity|].
      exists fields. split; [reflexivity|].
      destruct kind; try discriminate. cbn [eq_str] in Heq.
      apply String.eqb_eq in Heq. now subst.
    + apply IH. intros a c Hin. apply (Hno a c). now right.
  - cbn [eq_str]. apply IH. intros a c Hin. apply (Hno a c). now right.
Qed.

(** C4: when the configuration file is missing, cannot be decoded or be
    read, or holds no entry of kind "embedder", the embedder tester ends
    with exit status 1 and a diagnostic without having issued any request:
    [ERROR] lines for a missing file, a decoding error and a mapping of
    entries none of which is an embedder. *)
Theorem no_embedder_exits_before_network (lower : string -> string) (net : nat -> request -> net_result)
    (fs : string -> load_result) :
  (forall models, fs MODELS_FILE = Loaded models -> ~ has_embedder models) ->
  exit_status (fst (run (main lower net fs))) = 1
  /\ calls (snd (run (main lower net fs))) = []
  /\ diagnosed (run (main lower net fs))
  /\ (fs MODELS_FILE = Missing ->
      run (main lower net fs) = (Raise (SystemExit 1), mkEffects [not_found_line] []))
  /\ (forall msg, fs MODELS_FILE = Undecodable msg ->
      run (main lower net fs) = (Raise (SystemExit 1), mkEffects [parse_failed_line msg] []))
  /\ (forall entries, fs MODELS_FILE = Loaded (JObj entries) ->
      Forall (fun entry => exists fields, snd entry = JObj fields) entries ->
      run (main lower net fs) = (Raise (SystemExit 1), mkEffects [no_embedder_line] [])).
Proof.
  intros Hno. unfold run, main, _load_embedder_cfg, diagnosed. run_simpl.
  destruct (fs MODELS_FILE) as [models| |msg|msg] eqn:Hfs; run_simpl.
  - specialize (Hno models eq_refl).
    destruct models as [| | | | |l|entries]; cbn [py_items]; run_simpl;
      try (repeat split; try discriminate; right; eexists; repeat split).
    assert (Hnone : forall alias cfg, In (alias, cfg) entries -> ~ is_embedder cfg).
    { intros alias cfg Hin Hemb. apply Hno. exists entries, alias, cfg. auto. }
    destruct (first_embedder_none entries Hnone) as [H|H]; rewrite H; run_simpl.
    + repeat split; try discriminate; auto.
    + repeat split; try discriminate.
      * right. eexists. repeat split.
      * intros entries' Heq Hobj. inversion Heq; subst entries'. exfalso.
        clear - Hobj H. induction Hobj as [|[alias cfg] rest [fields Hf] _ IH];
          [discriminate|].
        cbn [snd] in Hf. subst cfg. cbn [first_embedder py_get] in H.
        destruct (eq_str _ _); [discriminate | auto].
  - repeat split; try discriminate; auto.
  - repeat split; try discriminate.
    + left. split; [reflexivity|]. right. left. eexists. reflexivity.
    + intros msg' Heq. inversion Heq. reflexivity.
  - repeat split; try discriminate. right. eexists. repeat split.
Qed.

Lemma no_embedder_exits_before_network_witness :
  exit_status (fst (run (main ascii_lower net_down fs_missing))) = 1
  /\ calls (snd (run (main ascii_lower net_down (fs_holds (JObj [("chat", JObj [("kind", JStr "llm")])]))))) = [].
Proof.
  split.
  - apply (no_embedder_exits_before_network ascii_lower net_down fs_missing).
    intros models H. discriminate H.
  - apply (no_embedder_exits_before_network ascii_lower net_down
             (fs_holds (JObj [("chat", JObj [("kind", JStr "llm")])]))).
    intros models H (entries & alias & cfg & -> & Hin & fields & -> & Hkind).
    inversion H; subst entries.
    destruct Hin as [Heq|[]]. inversion Heq; subst. discriminate Hkind.
Defined.

(** C9: with a base_url configured, the connectivity check returns True
    exactly when its GET is answered by a response, whatever the status, and
    False exactly when the request ends in a refused connection, a timeout
    or another exception of the client. *)
Theorem connection_passes_on_any_response (net : nat -> request -> net_result)
    (n : nat) (alias : string) (fields : list (string * json)) (u : string) :
  lookup "base_url" fields = Some (JStr u) ->
  (fst (test_connection net alias (JObj fields) n) = Ret true <->
   exists r, net n (connection_request (rstrip_slash u)) = Responded r)
  /\ (fst (test_connection net alias (JObj fields) n) = Ret false <->
      exists msg, net n (connection_request (rstrip_slash u)) = Unreachable msg
                  \/ net n (connection_request (rstrip_slash u)) = TimedOut msg
                  \/ net n (connection_request (rstrip_slash u)) = Broken msg)
  /\ calls (snd (test_connection net alias (JObj fields) n))
     = [connection_request (rstrip_slash u)].
Proof.
  intros Hurl. unfold test_connection. rewrite (base_url_of_str _ _ Hurl). run_simpl.
  destruct (net n (connection_request (rstrip_slash u))) as [r|msg|msg|msg]; run_simpl.
  - split; [split; [intros _; exists r; reflexivity | reflexivity] | split; [|reflexivity]].
    split; [discriminate | intros [msg [H|[H|H]]]; discriminate].
  - split; [split; [discriminate | intros [r H]; discriminate] | split; [|reflexivity]].
    split; [intros _; exists msg; auto | reflexivity].
  - split; [split; [discriminate | intros [r H]; discriminate] | split; [|reflexivity]].
    split; [intros _; exists msg; auto | reflexivity].
  - split; [split; [discriminate | intros [r H]; discriminate] | split; [|reflexivity]].
    split; [intros _; exists msg; auto | reflexivity].
Qed.

Lemma connection_passes_on_any_response_witness :
  fst (test_connection (net_answers (status_only 404)) "embed" (JObj sample_cfg) 0%nat)
  = Ret true.
Proof.
  apply (proj1 (connection_passes_on_any_response
                  (net_answers (status_only 404)) 0%nat "embed" sample_cfg
                  "http://localhost:11434/" eq_refl)).
  eexists. reflexivity.
Defined.

Lemma real_credentialb_spec (lower : string -> string) (key : string) :
  real_credentialb lower key = true <-> real_credential lower key.
Proof.
  unfold real_credentialb, real_credential, in_strs.
  rewrite andb_true_iff, !negb_true_iff, String.eqb_neq.
  apply and_iff_compat_l. split.
  - intros Hf Hin. apply Bool.not_true_iff_false in Hf. apply Hf.
    apply existsb_exists. exists (lower key). split; [exact Hin | apply String.eqb_refl].
  - intros Hnot. apply Bool.not_true_iff_false. intros Hex.
    apply existsb_exists in Hex. destruct Hex as [p [Hin Heq]].
    apply String.eqb_eq in Heq. subst p. contradiction.
Qed.

(** What [_headers] builds for a configured credential. *)
Lemma headers_of_key (lower : string -> string) (fields : list (string * json)) (key : string) :
  api_key_is fields key ->
  _headers lower (JObj fields)
  = Ret (if real_credentialb lower key
         then [("Content-Type", "application/json"); ("Authorization", "Bearer " ++ key)]
         else [("Content-Type", "application/json")]).
Proof.
  intros [H|H|k H]; unfold _headers, py_get; rewrite H; try reflexivity.
  unfold real_credentialb. cbn [truthy py_lower].
  destruct (String.eqb k EmptyString); cbn [negb andb]; [reflexivity|].
  destruct (in_strs (lower k) placeholders); reflexivity.
Qed.

Lemma model_name_of_entry alias fields :
  exists model_name, model_name_of alias (JObj fields) = Ret model_name.
Proof. unfold model_name_of, py_get. eexists. reflexivity. Qed.

(** The one request of the embedding check. *)
Lemma test_embedding_calls (lower : string -> string) net n alias fields u key sentence model_name :
  lookup "base_url" fields = Some (JStr u) ->
  api_key_is fields key ->
  model_name_of alias (JObj fields) = Ret model_name ->
  calls (snd (test_embedding lower net alias (JObj fields) sentence n))
  = [embeddings_request (rstrip_slash u ++ "/v1/embeddings")
       (if real_credentialb lower key
        then [("Content-Type", "application/json"); ("Authorization", "Bearer " ++ key)]
        else [("Content-Type", "application/json")])
       model_name sentence].
Proof.
  intros Hurl Hkey Hmodel. unfold test_embedding, post_checked, decoded, raise_for_status,
    print_pass, print_fail.
  rewrite Hmodel, (base_url_of_str _ _ Hurl), (headers_of_key lower _ _ Hkey).
  run_all; reflexivity.
Qed.

(** C10, as the code has it: the request of the embedding check carries an
    Authorization header exactly when the configured api_key is not empty
    and its lowercase form, as [str.lower] gives it, is none of the
    placeholders; the header then is "Bearer" followed by the key as it is
    configured. *)
Theorem authorization_iff_real_credential (lower : string -> string) (net : nat -> request -> net_result)
    (n : nat) (alias : string) (fields : list (string * json)) (u key sentence : string) :
  lookup "base_url" fields = Some (JStr u) ->
  api_key_is fields key ->
  exists rq,
    calls (snd (test_embedding lower net alias (JObj fields) sentence n)) = [rq]
    /\ req_url rq = rstrip_slash u ++ "/v1/embeddings"
    /\ ((exists value, header "Authorization" (req_headers rq) = Some value)
        <-> real_credential lower key)
    /\ (real_credential lower key ->
        header "Authorization" (req_headers rq) = Some ("Bearer " ++ key))
    /\ (~ real_credential lower key -> req_headers rq = [("Content-Type", "application/json")]).
Proof.
  intros Hurl Hkey. destruct (model_name_of_entry alias fields) as [model_name Hmodel].
  eexists. split; [apply (test_embedding_calls lower _ _ _ _ _ _ _ _ Hurl Hkey Hmodel)|].
  cbn [req_url req_headers embeddings_request]. rewrite <- real_credentialb_spec.
  destruct (real_credentialb lower key); cbn [header String.eqb Ascii.eqb Bool.eqb].
  - repeat split; try reflexivity; try (intros H; exfalso; apply H; reflexivity).
    eexists. reflexivity.
  - repeat split; try discriminate; try reflexivity. intros [value H]. discriminate.
Qed.

Lemma authorization_iff_real_credential_witness :
  exists rq,
    calls (snd (test_embedding ascii_lower net_down "embed" (JObj keyed_cfg) "hello" 1%nat)) = [rq]
    /\ header "Authorization" (req_headers rq) = Some "Bearer sk-123".
Proof.
  destruct (authorization_iff_real_credential ascii_lower net_down 1%nat "embed" keyed_cfg
              "https://api.example.com" "sk-123" "hello" eq_refl
              (key_str keyed_cfg "sk-123" eq_refl))
    as (rq & Hcalls & _ & _ & Hauth & _).
  exists rq. split; [exact Hcalls|]. apply Hauth.
  split; [discriminate|]. cbn. intuition discriminate.
Defined.

(** C10 as stated fails: the key NONE is not empty and is none of the
    placeholders of the list, and the request carries no Authorization
    header all the same, because the key is lowercased before it is looked
    up in the list. *)
Lemma uppercase_placeholder_gets_no_header :
  "NONE" <> EmptyString
  /\ ~ In "NONE" placeholders
  /\ exists rq,
       calls (snd (run (test_embedding ascii_lower net_down "embed" (JObj shouting_cfg)
                          "hello"))) = [rq]
       /\ header "Authorization" (req_headers rq) = None
       /\ req_headers rq = [("Content-Type", "application/json")].
Proof.
  split; [discriminate | split].
  - cbn. intuition discriminate.
  - eexists. repeat split.
Qed.

Lemma json_of_ret r body : json_of r = Ret body -> resp_json r = inr body.
Proof. unfold json_of. destruct (resp_json r); [discriminate | congruence]. Qed.

Lemma py_get_found d k v :
  py_get d k JNull = Ret v -> v <> JNull ->
  exists fields, d = JObj fields /\ lookup k fields = Some v.
Proof.
  destruct d; try discriminate. cbn [py_get]. intros H Hv. exists o. split; [reflexivity|].
  destruct (lookup k o); inversion H; subst; [reflexivity | contradiction].
Qed.

Lemma numeric_spot_check values :
  first_five_numeric values -> first_five_int_or_float values.
Proof.
  unfold first_five_numeric, numeric, first_five_int_or_float. intros H.
  apply forallb_forall. intros v Hin.
  rewrite Forall_forall in H. specialize (H v Hin). destruct v; try discriminate; reflexivity.
Qed.

(** The embedding check returns True on one path only. *)
Lemma test_embedding_true_inv (lower : string -> string) (net : nat -> request -> net_result)
    (n : nat) (alias : string) (fields : list (string * json)) (u key sentence : string)
    (r : response) (model_name : json) :
  lookup "base_url" fields = Some (JStr u) ->
  api_key_is fields key ->
  model_name_of alias (JObj fields) = Ret model_name ->
  (forall rq, net n rq = Responded r) ->
  fst (test_embedding lower net alias (JObj fields) sentence n) = Ret true ->
  is_success (status_code r) = true
  /\ exists body first rest values,
       json_of r = Ret body
       /\ py_get body "data" JNull = Ret (JArr (first :: rest))
       /\ py_get first "embedding" JNull = Ret (JArr values)
       /\ values <> []
       /\ first_five_int_or_float values
       /\ stdout (snd (test_embedding lower net alias (JObj fields) sentence n))
          = app (embedding_banner (rstrip_slash u ++ "/v1/embeddings") model_name sentence)
                [dimension_line values; first_values_line values; [Lit "  "; Str PASS]].
Proof.
  intros Hurl Hkey Hmodel Hnet.
  unfold test_embedding, post_checked, decoded, raise_for_status, print_pass, print_fail.
  rewrite Hmodel, (base_url_of_str _ _ Hurl), (headers_of_key lower _ _ Hkey).
  run_simpl. rewrite Hnet.
  run_all; intros H; try discriminate H.
  split; [reflexivity|]. do 4 eexists.
  repeat split; try eassumption; try reflexivity; try discriminate.
  unfold first_five_int_or_float. now apply negb_false_iff.
Qed.

Lemma test_embedding_passes (lower : string -> string) (net : nat -> request -> net_result)
    (n : nat) (alias : string) (fields : list (string * json)) (u key sentence : string)
    (r : response) (model_name body first : json) (rest values : list json) :
  lookup "base_url" fields = Some (JStr u) ->
  api_key_is fields key ->
  model_name_of alias (JObj fields) = Ret model_name ->
  (forall rq, net n rq = Responded r) ->
  is_success (status_code r) = true ->
  resp_json r = inr body ->
  py_get body "data" JNull = Ret (JArr (first :: rest)) ->
  py_get first "embedding" JNull = Ret (JArr values) ->
  values <> [] ->
  first_five_int_or_float values ->
  fst (test_embedding lower net alias (JObj fields) sentence n) = Ret true
  /\ stdout (snd (test_embedding lower net alias (JObj fields) sentence n))
     = app (embedding_banner (rstrip_slash u ++ "/v1/embeddings") model_name sentence)
           [dimension_line values; first_values_line values; [Lit "  "; Str PASS]].
Proof.
  intros Hurl Hkey Hmodel Hnet Hok Hbody Hdata Hemb Hne Hspot.
  unfold test_embedding, post_checked, decoded, raise_for_status, print_pass, print_fail.
  rewrite Hmodel, (base_url_of_str _ _ Hurl), (headers_of_key lower _ _ Hkey).
  run_simpl. rewrite Hnet, Hok. unfold json_of. rewrite Hbody. run_simpl.
  rewrite Hdata. run_simpl. rewrite Hemb. run_simpl.
  destruct values as [|x xs]; [contradiction|].
  unfold first_five_int_or_float in Hspot. rewrite Hspot. split; reflexivity.
Qed.

Lemma test_embedding_empty_data (lower : string -> string) (net : nat -> request -> net_result)
    (n : nat) (alias : string) (fields : list (string * json)) (u key sentence : string)
    (r : response) :
  lookup "base_url" fields = Some (JStr u) ->
  api_key_is fields key ->
  (forall rq, net n rq = Responded r) ->
  is_success (status_code r) = true ->
  resp_json r = inr (JObj [("data", JArr [])]) ->
  fst (test_embedding lower net alias (JObj fields) sentence n) = Ret false.
Proof.
  intros Hurl Hkey Hnet Hok Hbody.
  destruct (model_name_of_entry alias fields) as [model_name Hmodel].
  unfold test_embedding, post_checked, decoded, raise_for_status, print_pass, print_fail.
  rewrite Hmodel, (base_url_of_str _ _ Hurl), (headers_of_key lower _ _ Hkey).
  run_simpl. rewrite Hnet, Hok. unfold json_of. rewrite Hbody. reflexivity.
Qed.

Lemma py_get_entry fields k v default :
  lookup k fields = Some v -> py_get (JObj fields) k default = Ret v.
Proof. intros H. cbn [py_get]. rewrite H. reflexivity. Qed.

(** C3, as the code has it: with base_url and api_key configured and the
    POST answered by a response, the embedding check returns True when the
    status is 2xx and the body decodes to a mapping whose data is a
    non-empty list of items that each hold a non-empty embedding list whose
    first five values are numbers; it returns True only when the status is
    2xx and the first item of a non-empty data list holds a non-empty
    embedding list whose first five values are ints or floats, and it then
    prints the length of that list and its first five values rounded.  For
    data [{embedding: [0.1, 0.2, 0.3]}] it prints dimension 3 and returns
    True, and for data [] it returns False. *)
Theorem embedding_check_spot_checks (lower : string -> string) (net : nat -> request -> net_result)
    (n : nat) (alias : string) (fields : list (string * json)) (u key sentence : string)
    (r : response) :
  lookup "base_url" fields = Some (JStr u) ->
  api_key_is fields key ->
  (forall rq, net n rq = Responded r) ->
  (forall body,
      is_success (status_code r) = true ->
      resp_json r = inr body ->
      embeddings_shape first_five_numeric body ->
      fst (test_embedding lower net alias (JObj fields) sentence n) = Ret true)
  /\ (fst (test_embedding lower net alias (JObj fields) sentence n) = Ret true ->
      is_success (status_code r) = true
      /\ exists body_fields item items item_fields values,
           resp_json r = inr (JObj body_fields)
           /\ lookup "data" body_fields = Some (JArr (item :: items))
           /\ item = JObj item_fields
           /\ lookup "embedding" item_fields = Some (JArr values)
           /\ values <> []
           /\ first_five_int_or_float values
           /\ In (dimension_line values)
                (stdout (snd (test_embedding lower net alias (JObj fields) sentence n)))
           /\ In (first_values_line values)
                (stdout (snd (test_embedding lower net alias (JObj fields) sentence n))))
  /\ (is_success (status_code r) = true ->
      resp_json r = inr (embedding_body three_values) ->
      fst (test_embedding lower net alias (JObj fields) sentence n) = Ret true
      /\ In [Lit "  Embedding dimension : "; Num 3]
           (stdout (snd (test_embedding lower net alias (JObj fields) sentence n))))
  /\ (is_success (status_code r) = true ->
      resp_json r = inr (JObj [("data", JArr [])]) ->
      fst (test_embedding lower net alias (JObj fields) sentence n) = Ret false).
Proof.
  intros Hurl Hkey Hnet.
  destruct (model_name_of_entry alias fields) as [model_name Hmodel].
  split; [|split; [|split]].
  - intros body Hok Hbody (body_fields & item & items & -> & Hdata & Hitems).
    inversion Hitems as [|? ? (item_fields & x & xs & -> & Hemb & Hnum) _]; subst.
    apply (test_embedding_passes lower net n alias fields u key sentence r model_name
             (JObj body_fields) (JObj item_fields) items (x :: xs));
      auto using py_get_entry, numeric_spot_check; discriminate.
  - intros Htrue.
    destruct (test_embedding_true_inv lower net n alias fields u key sentence r model_name
                Hurl Hkey Hmodel Hnet Htrue)
      as (Hok & body & first & rest & values & Hbody & Hdata & Hemb & Hne & Hspot & Hout).
    split; [exact Hok|].
    destruct (py_get_found _ _ _ Hdata) as (body_fields & -> & Hdata'); [discriminate|].
    destruct (py_get_found _ _ _ Hemb) as (item_fields & -> & Hemb'); [discriminate|].
    exists body_fields, (JObj item_fields), rest, item_fields, values.
    rewrite Hout. repeat split; auto using json_of_ret.
    + apply in_or_app. right. left. reflexivity.
    + apply in_or_app. right. right. left. reflexivity.
  - intros Hok Hbody.
    destruct (test_embedding_passes lower net n alias fields u key sentence r model_name
                (embedding_body three_values)
                (JObj [("embedding", JArr three_values)]) [] three_values)
      as [Htrue Hout]; auto; try reflexivity; try discriminate.
    split; [exact Htrue|]. rewrite Hout.
    apply in_or_app. right. left. reflexivity.
  - intros Hok Hbody.
    apply (test_embedding_empty_data lower net n alias fields u key sentence r); assumption.
Qed.

Lemma embedding_check_spot_checks_witness :
  fst (test_embedding ascii_lower (net_answers (ok (embedding_body three_values)))
         "embed" (JObj sample_cfg) "hello" 1%nat) = Ret true
  /\ fst (test_embedding ascii_lower (net_answers (ok (JObj [("data", JArr [])])))
            "embed" (JObj sample_cfg) "hello" 1%nat) = Ret false.
Proof.
  split.
  - apply (proj1 (proj1 (proj2 (proj2
             (embedding_check_spot_checks ascii_lower
                (net_answers (ok (embedding_body three_values))) 1%nat "embed" sample_cfg
                "http://localhost:11434/" "ollama" "hello"
                (mkResponse 200 EmptyString (inr (embedding_body three_values)))
                eq_refl (key_str sample_cfg "ollama" eq_refl) (fun _ => eq_refl))))
             eq_refl eq_refl)).
  - apply (proj2 (proj2 (proj2
             (embedding_check_spot_checks ascii_lower
                (net_answers (ok (JObj [("data", JArr [])]))) 1%nat "embed" sample_cfg
                "http://localhost:11434/" "ollama" "hello"
                (mkResponse 200 EmptyString (inr (JObj [("data", JArr [])])))
                eq_refl (key_str sample_cfg "ollama" eq_refl) (fun _ => eq_refl))))
             eq_refl eq_refl).
Defined.

(** C3 as stated fails both ways: a 2xx response whose vector has a string
    behind its first five numbers passes, and a well-shaped body under
    status 500 does not. *)
Lemma embedding_check_not_exactly_the_shape :
  (fst (run (test_embedding ascii_lower (net_answers (ok (embedding_body six_values)))
               "embed" (JObj sample_cfg) "hello")) = Ret true
   /\ ~ embeddings_shape numeric (embedding_body six_values))
  /\ (embeddings_shape numeric (embedding_body three_values)
      /\ fst (run (test_embedding ascii_lower
                     (net_answers (Responded (mkResponse 500 EmptyString
                                                (inr (embedding_body three_values)))))
                     "embed" (JObj sample_cfg) "hello")) = Ret false).
Proof.
  split; split.
  - reflexivity.
  - intros (body_fields & item & items & Hbody & Hdata & Hitems).
    inversion Hbody; subst body_fields. cbn in Hdata. inversion Hdata; subst item items.
    inversion Hitems as [|? ? (item_fields & x & xs & Hitem & Hemb & Hnum) _].
    inversion Hitem; subst item_fields. cbn in Hemb. inversion Hemb; subst x xs.
    unfold numeric in Hnum. rewrite Forall_forall in Hnum.
    specialize (Hnum (JStr "x")). cbn in Hnum.
    assert (false = true) by (apply Hnum; tauto). discriminate.
  - do 3 eexists. split; [reflexivity | split; [reflexivity|]].
    constructor; [|constructor]. do 3 eexists.
    split; [reflexivity | split; [reflexivity|]].
    repeat constructor.
  - reflexivity.
Qed.

Lemma next_endswith_keys (suffix : string) (mapping : list (string * json)) :
  next_endswith suffix (map (fun kv => JStr (fst kv)) mapping)
  = Ret (option_map fst (first_with_suffix suffix mapping)).
Proof.
  induction mapping as [|[k v] mapping IH]; [reflexivity|].
  cbn [map fst next_endswith first_with_suffix find].
  destruct (endswith k suffix); [reflexivity | exact IH].
Qed.

(** The key found first is the key [d[key]] reads. *)
Lemma first_with_suffix_lookup (suffix : string) (mapping : list (string * json)) k v :
  first_with_suffix suffix mapping = Some (k, v) -> lookup k mapping = Some v.
Proof.
  induction mapping as [|[k0 v0] mapping IH]; [discriminate|].
  cbn [first_with_suffix find fst lookup].
  destruct (endswith k0 suffix) eqn:Hk0.
  - intros H. inversion H; subst. rewrite String.eqb_refl. reflexivity.
  - intros H. destruct (String.eqb k k0) eqn:Heq; [|exact (IH H)].
    apply String.eqb_eq in Heq. subst k0.
    apply find_some in H. cbn [fst] in H. destruct H as [_ H]. congruence.
Qed.

Lemma first_with_suffix_some (suffix : string) (mapping : list (string * json)) :
  (exists kv, first_with_suffix suffix mapping = Some kv) <->
  exists k v, In (k, v) mapping /\ has_suffix suffix k.
Proof.
  unfold first_with_suffix, has_suffix. split.
  - intros [[k v] H]. apply find_some in H. destruct H as [Hin Hend].
    exists k, v. split; [exact Hin | now apply endswith_spec].
  - intros (k & v & Hin & Hsuf).
    destruct (find _ mapping) as [kv|] eqn:Hfind; [exists kv; reflexivity|].
    exfalso. apply (find_none _ _ Hfind) in Hin. cbn [fst] in Hin.
    apply endswith_spec in Hsuf. congruence.
Qed.

(** The context-window check on a decoded model-show response. *)
Lemma test_context_window_run (net : nat -> request -> net_result)
    (n : nat) (alias : string) (fields : list (string * json)) (u : string)
    (r : response) (model_name : json) (body_fields modelinfo : list (string * json)) :
  lookup "base_url" fields = Some (JStr u) ->
  model_name_of alias (JObj fields) = Ret model_name ->
  (forall rq, net n rq = Responded r) ->
  is_success (status_code r) = true ->
  resp_json r = inr (JObj body_fields) ->
  lookup "modelinfo" body_fields = Some (JObj modelinfo) ->
  match first_with_suffix ".context_length" modelinfo with
  | Some (key, value) =>
      is_number value = true ->
      fst (test_context_window net alias (JObj fields) n) = Ret true
      /\ stdout (snd (test_context_window net alias (JObj fields) n))
         = app (context_banner (rstrip_slash u ++ "/api/show") model_name)
               [context_key_line key; context_window_line value; [Lit "  "; Str PASS]]
  | None => fst (test_context_window net alias (JObj fields) n) = Ret false
  end.
Proof.
  intros Hurl Hmodel Hnet Hok Hbody Hinfo.
  unfold test_context_window, post_checked, decoded, raise_for_status, print_pass, print_fail.
  rewrite Hmodel, (base_url_of_str _ _ Hurl).
  run_simpl. rewrite Hnet, Hok. unfold json_of. rewrite Hbody. run_simpl.
  rewrite (py_get_entry _ _ _ _ Hinfo). run_simpl.
  destruct modelinfo as [|entry modelinfo]; [reflexivity|].
  cbn [truthy negb]. unfold py_iter. run_simpl.
  rewrite next_endswith_keys.
  destruct (first_with_suffix _ (entry :: modelinfo)) as [[key value]|] eqn:Hfirst;
    cbn [option_map fst]; run_simpl.
  - intros Hnum. unfold py_getitem. rewrite (first_with_suffix_lookup _ _ _ _ Hfirst).
    run_simpl. destruct value; try discriminate Hnum; split; reflexivity.
  - reflexivity.
Qed.

(** Where the values are numbers: for a 2xx model-show response whose body
    decodes to a mapping with a modelinfo mapping in which the values under
    keys ending in ".context_length" are numbers, the context-window check
    returns True exactly when some key of modelinfo ends in
    ".context_length", and False otherwise; when it passes it prints the
    first such key and its value. *)
Theorem context_window_iff_suffix_key (net : nat -> request -> net_result)
    (n : nat) (alias : string) (fields : list (string * json)) (u : string)
    (r : response) (body_fields modelinfo : list (string * json)) :
  lookup "base_url" fields = Some (JStr u) ->
  (forall rq, net n rq = Responded r) ->
  is_success (status_code r) = true ->
  resp_json r = inr (JObj body_fields) ->
  lookup "modelinfo" body_fields = Some (JObj modelinfo) ->
  (forall k v, In (k, v) modelinfo -> has_suffix ".context_length" k -> is_number v = true) ->
  (fst (test_context_window net alias (JObj fields) n) = Ret true <->
   exists k v, In (k, v) modelinfo /\ has_suffix ".context_length" k)
  /\ (fst (test_context_window net alias (JObj fields) n) = Ret false <->
      ~ exists k v, In (k, v) modelinfo /\ has_suffix ".context_length" k)
  /\ (forall key value,
        first_with_suffix ".context_length" modelinfo = Some (key, value) ->
        In (context_key_line key)
          (stdout (snd (test_context_window net alias (JObj fields) n)))
        /\ In (context_window_line value)
             (stdout (snd (test_context_window net alias (JObj fields) n)))).
Proof.
  intros Hurl Hnet Hok Hbody Hinfo Hnum.
  destruct (model_name_of_entry alias fields) as [model_name Hmodel].
  pose proof (test_context_window_run net n alias fields u r model_name body_fields
                modelinfo Hurl Hmodel Hnet Hok Hbody Hinfo) as Hrun.
  rewrite <- first_with_suffix_some.
  destruct (first_with_suffix ".context_length" modelinfo) as [[key value]|] eqn:Hfirst.
  - assert (Hvalue : is_number value = true).
    { pose proof (find_some _ _ Hfirst) as [Hin Hend]. cbn [fst] in Hend.
      apply (Hnum key value Hin). now apply endswith_spec. }
    destruct (Hrun Hvalue) as [Htrue Hout]. rewrite Htrue, Hout.
    split; [|split].
    + split; [intros _; eexists; reflexivity | reflexivity].
    + split; [discriminate | intros H; exfalso; apply H; eexists; reflexivity].
    + intros k v Heq. inversion Heq; subst. split; apply in_or_app; right.
      * left. reflexivity.
      * right. left. reflexivity.
  - rewrite Hrun. split; [|split].
    + split; [discriminate | intros [kv H]; discriminate].
    + split; [intros _ [kv H]; discriminate | reflexivity].
    + intros k v Heq. discriminate.
Qed.

Lemma context_window_iff_suffix_key_witness :
  (fst (test_context_window
          (net_answers (ok (modelinfo_body [("llama.context_length", JInt 8192)])))
          "embed" (JObj sample_cfg) 2%nat) = Ret true
   /\ In (context_window_line (JInt 8192))
        (stdout (snd (test_context_window
           (net_answers (ok (modelinfo_body [("llama.context_length", JInt 8192)])))
           "embed" (JObj sample_cfg) 2%nat))))
  /\ fst (test_context_window (net_answers (ok (modelinfo_body [])))
            "embed" (JObj sample_cfg) 2%nat) = Ret false.
Proof.
  assert (H8192 : forall k v, In (k, v) [("llama.context_length", JInt 8192)] ->
                  has_suffix ".context_length" k -> is_number v = true).
  { intros k v [Heq|[]] _. inversion Heq. reflexivity. }
  assert (Hnone : forall k v, In (k, v) (@nil (string * json)) ->
                  has_suffix ".context_length" k -> is_number v = true).
  { intros k v []. }
  split; [split|].
  - apply (proj1 (context_window_iff_suffix_key
                    (net_answers (ok (modelinfo_body [("llama.context_length", JInt 8192)])))
                    2%nat "embed" sample_cfg "http://localhost:11434/" _ _
                    [("llama.context_length", JInt 8192)]
                    eq_refl (fun _ => eq_refl) eq_refl eq_refl eq_refl H8192)).
    exists "llama.context_length", (JInt 8192). split; [left; reflexivity|].
    exists "llama". reflexivity.
  - apply (proj2 (proj2 (context_window_iff_suffix_key
                    (net_answers (ok (modelinfo_body [("llama.context_length", JInt 8192)])))
                    2%nat "embed" sample_cfg "http://localhost:11434/" _ _
                    [("llama.context_length", JInt 8192)]
                    eq_refl (fun _ => eq_refl) eq_refl eq_refl eq_refl H8192))
             "llama.context_length" (JInt 8192) eq_refl).
  - apply (proj1 (proj2 (context_window_iff_suffix_key
                    (net_answers (ok (modelinfo_body [])))
                    2%nat "embed" sample_cfg "http://localhost:11434/" _ _ []
                    eq_refl (fun _ => eq_refl) eq_refl eq_refl eq_refl Hnone))).
    intros (k & v & [] & _).
Defined.

(** C8: a 2xx model-show response whose modelinfo holds the key
    llama.context_length with the text "8192": the key ends in
    ".context_length", the check finds and prints it, and then raises
    ValueError while formatting the value with thousands separators; it
    does not return True, as the claim and the docstring of the function
    say it does when the key is there. *)
Lemma context_window_raises_on_text_value :
  (exists k v, In (k, v) text_valued_modelinfo /\ has_suffix ".context_length" k)
  /\ run (test_context_window (net_answers (ok (modelinfo_body text_valued_modelinfo)))
            "embed" (JObj sample_cfg))
     = (Raise ValueError,
        mkEffects
          (app (context_banner "http://localhost:11434/api/show" (JStr "nomic-embed-text"))
               [context_key_line "llama.context_length"])
          [test_embedder.show_request "http://localhost:11434/api/show"
             (JStr "nomic-embed-text")])
  /\ exit_status (fst (run (test_context_window
                              (net_answers (ok (modelinfo_body text_valued_modelinfo)))
                              "embed" (JObj sample_cfg)))) = 1.
Proof.
  split; [|split; reflexivity].
  exists "llama.context_length", (JStr "8192"). split; [left; reflexivity|].
  exists "llama". reflexivity.
Qed.

Lemma ordinary_model_name_of alias cfg : ordinary (model_name_of alias cfg).
Proof.
  intros code. unfold model_name_of. destruct (py_get cfg "model" JNull) eqn:H; [discriminate|].
  intros H'. apply (ordinary_py_get cfg "model" JNull code). congruence.
Qed.

Lemma ordinary_base_url_of cfg : ordinary (base_url_of cfg).
Proof.
  intros code. unfold base_url_of. destruct (py_getitem cfg "base_url") eqn:H.
  - apply ordinary_py_rstrip_slash.
  - intros H'. apply (ordinary_py_getitem cfg "base_url" code). congruence.
Qed.

Lemma ordinary_headers lower cfg : ordinary (_headers lower cfg).
Proof.
  intros code. unfold _headers.
  destruct (py_get cfg "api_key" (JStr EmptyString)) as [api_key|e] eqn:H.
  - destruct (truthy api_key); [|discriminate].
    destruct api_key; cbn [py_lower]; try discriminate.
    destruct (negb _); discriminate.
  - intros H'. apply (ordinary_py_get cfg "api_key" (JStr EmptyString) code). congruence.
Qed.

(** [_headers] fails in one way only: on a key that has no [lower]. *)
Lemma headers_raises lower cfg e : _headers lower cfg = Raise e -> e = AttributeError.
Proof.
  unfold _headers. destruct cfg; cbn [py_get]; try congruence.
  destruct (lookup "api_key" o) as [api_key|]; cbn [truthy String.eqb negb]; [|discriminate].
  destruct (truthy api_key); [|discriminate].
  destruct api_key; cbn [py_lower]; try congruence.
  destruct (negb _); discriminate.
Qed.

#[export] Hint Resolve ordinary_model_name_of ordinary_base_url_of ordinary_headers : pyexn.

Ltac never_exits :=
  let code := fresh "code" in
  let Hx := fresh "Hx" in
  intros code Hx; first [discriminate Hx | injection Hx as ->; no_exit].

(** A check that returns has issued its one request, and no check ends the
    process by itself. *)
Lemma test_connection_returns net alias cfg n :
  (forall b, fst (test_connection net alias cfg n) = Ret b ->
             length (calls (snd (test_connection net alias cfg n))) = 1%nat)
  /\ ordinary (fst (test_connection net alias cfg n)).
Proof.
  unfold test_connection, print_pass, print_fail.
  run_all; (split; [intros ? Hret; try discriminate Hret; reflexivity | never_exits]).
Qed.

Lemma test_embedding_returns (lower : string -> string) net alias cfg sentence n :
  (forall b, fst (test_embedding lower net alias cfg sentence n) = Ret b ->
             length (calls (snd (test_embedding lower net alias cfg sentence n))) = 1%nat)
  /\ ordinary (fst (test_embedding lower net alias cfg sentence n)).
Proof.
  unfold test_embedding, post_checked, decoded, raise_for_status, print_pass, print_fail.
  destruct (_headers lower cfg) as [headers|e] eqn:Hheaders;
    [|apply headers_raises in Hheaders; subst e].
  all: run_all; (split; [intros ? Hret; try discriminate Hret; reflexivity | never_exits]).
Qed.

Lemma test_context_window_returns net alias cfg n :
  (forall b, fst (test_context_window net alias cfg n) = Ret b ->
             length (calls (snd (test_context_window net alias cfg n))) = 1%nat)
  /\ ordinary (fst (test_context_window net alias cfg n)).
Proof.
  unfold test_context_window, post_checked, decoded, raise_for_status, print_pass, print_fail.
  run_all; (split; [intros ? Hret; try discriminate Hret; reflexivity | never_exits]).
Qed.

Lemma first_embedder_some entries alias cfg :
  first_embedder entries = Ret (Some (alias, cfg)) -> exists fields, cfg = JObj fields.
Proof.
  induction entries as [|[a c] entries IH]; [discriminate|].
  cbn [first_embedder]. destruct c; try discriminate. cbn [py_get].
  destruct (eq_str _ _); [|exact IH].
  intros H. inversion H; subst. eexists. reflexivity.
Qed.

(** The loader issues no request; when it does not return an entry, which
    is a mapping, the process ends with status 1. *)
Lemma load_embedder_cfg_run fs n :
  calls (snd (_load_embedder_cfg fs n)) = []
  /\ (forall e, fst (_load_embedder_cfg fs n) = Raise e ->
                exit_status (@Raise unit e) = 1)
  /\ (forall alias cfg, fst (_load_embedder_cfg fs n) = Ret (alias, cfg) ->
                        exists fields, cfg = JObj fields).
Proof.
  unfold _load_embedder_cfg. run_simpl.
  destruct (fs MODELS_FILE) as [models| |msg|msg]; run_simpl.
  - destruct (py_items models) as [entries|e] eqn:Hitems; run_simpl.
    + destruct (first_embedder entries) as [[[alias cfg]|]|e] eqn:Hfirst; run_simpl.
      * repeat split; try discriminate. intros a c H. inversion H; subst.
        exact (first_embedder_some _ _ _ Hfirst).
      * repeat split; try discriminate. intros e H. inversion H. reflexivity.
      * repeat split; try discriminate. intros e' H. inversion H; subst e'.
        destruct e; try reflexivity. exfalso. clear - Hfirst.
        induction entries as [|[a c] entries IH]; [discriminate|].
        cbn [first_embedder] in Hfirst. destruct c; try discriminate.
        cbn [py_get] in Hfirst. destruct (eq_str _ _); [discriminate | auto].
    + repeat split; try discriminate. intros e' H. inversion H; subst e'.
      destruct models; try discriminate; inversion Hitems; reflexivity.
  - repeat split; try discriminate. intros e H. inversion H. reflexivity.
  - repeat split; try discriminate. intros e H. inversion H. reflexivity.
  - repeat split; try discriminate. intros e H. inversion H. reflexivity.
Qed.

Lemma exit_status_raise {A B} (e : exn) :
  ordinary (@Raise A e) -> exit_status (@Raise B e) = 1.
Proof. intros H. destruct e; try reflexivity. exfalso. exact (H code eq_refl). Qed.

(** The exit status of the embedder tester. *)
Lemma embedder_exit_status (lower : string -> string) net fs :
  (exit_status (fst (run (test_embedder.main lower net fs))) = 0 <->
   exists alias cfg,
     fst (run (_load_embedder_cfg fs)) = Ret (alias, cfg)
     /\ fst (test_connection net alias cfg 0%nat) = Ret true
     /\ fst (test_embedding lower net alias cfg TEST_SENTENCE 1%nat) = Ret true
     /\ fst (test_context_window net alias cfg 2%nat) = Ret true)
  /\ (exit_status (fst (run (test_embedder.main lower net fs))) = 0
      \/ exit_status (fst (run (test_embedder.main lower net fs))) = 1).
Proof.
  destruct (load_embedder_cfg_run fs 0%nat) as (Hlc & Hlr & Hlo).
  unfold run, test_embedder.main. run_simpl.
  destruct (_load_embedder_cfg fs 0%nat) as [[[alias cfg]|e] [out0 c0]];
    cbn [fst snd calls] in *; subst c0; run_simpl.
  2: { rewrite (Hlr e eq_refl). split; [|right; reflexivity].
       split; [discriminate | intros (a & c & H & _); discriminate]. }
  destruct (Hlo alias cfg eq_refl) as [fields ->]. cbn [py_get]. run_simpl.
  destruct (test_connection_returns net alias (JObj fields) 0%nat) as [Hc1 Ho1].
  destruct (test_connection net alias (JObj fields) 0%nat) as [[r1|e1] [out1 c1]] eqn:E1;
    cbn [fst snd calls] in *.
  2: { run_simpl. rewrite (@exit_status_raise bool unit _ Ho1). split; [|right; reflexivity].
       split; [discriminate | intros (a & c & Hac & Ht & _)].
       inversion Hac; subst. rewrite E1 in Ht. discriminate. }
  rewrite (Hc1 r1 eq_refl). run_simpl.
  destruct (test_embedding_returns lower net alias (JObj fields) TEST_SENTENCE 1%nat) as [Hc2 Ho2].
  destruct (test_embedding lower net alias (JObj fields) TEST_SENTENCE 1%nat)
    as [[r2|e2] [out2 c2]] eqn:E2; cbn [fst snd calls] in *.
  2: { run_simpl. rewrite (@exit_status_raise bool unit _ Ho2). split; [|right; reflexivity].
       split; [discriminate | intros (a & c & Hac & _ & Ht & _)].
       inversion Hac; subst. rewrite E2 in Ht. discriminate. }
  rewrite (Hc2 r2 eq_refl). run_simpl.
  destruct (test_context_window_returns net alias (JObj fields) 2%nat) as [Hc3 Ho3].
  destruct (test_context_window net alias (JObj fields) 2%nat)
    as [[r3|e3] [out3 c3]] eqn:E3; cbn [fst snd calls] in *.
  2: { run_simpl. rewrite (@exit_status_raise bool unit _ Ho3). split; [|right; reflexivity].
       split; [discriminate | intros (a & c & Hac & _ & _ & Ht)].
       inversion Hac; subst. rewrite E3 in Ht. discriminate. }
  run_simpl.
  match goal with |- (_ <-> ?P) /\ _ => remember P as all_pass eqn:Hall end.
  destruct r1, r2, r3; cbn; subst all_pass; (split; [split|auto]);
    try discriminate; try (intros _; reflexivity);
    try (intros _; exists alias, (JObj fields); rewrite E1, E2, E3; auto);
    try (intros (a & c & Hac & H1 & H2 & H3); inversion Hac; subst;
         rewrite E1 in H1; rewrite E2 in H2; rewrite E3 in H3; discriminate).
Qed.

(** The health checker's [main] returns whenever the liveness check does. *)
Lemma health_checker_returns net :
  (exists b, fst (run (check_ollama_status net)) = Ret b) ->
  fst (run (check_ollama_config.main net)) = Ret tt.
Proof.
  intros [b Hb]. unfold run in *.
  pose proof (check_ollama_status_calls net 0%nat) as Hs.
  destruct (check_model_available_run net 1%nat) as (Ha & [ra Hra] & _).
  destruct (print_model_info_run net 2%nat) as (Hi & Hic & _).
  destruct (test_model_inference_run net 3%nat) as ([t Ht] & Htc & _).
  unfold check_ollama_config.main. run_simpl.
  destruct (check_ollama_status net 0%nat) as [r1 [out1 c1]];
    cbn [fst snd calls] in *; subst c1 r1; run_simpl.
  destruct b; cbn [negb]; run_simpl; [|reflexivity].
  destruct (check_model_available net 1%nat) as [r2 [out2 c2]];
    cbn [fst snd calls] in *; subst c2 r2; run_simpl.
  destruct (truth ra); cbn [negb]; run_simpl; [|reflexivity].
  destruct (print_model_info net 2%nat) as [r3 [out3 c3]];
    cbn [fst snd calls] in *; subst c3 r3; run_simpl.
  destruct (test_model_inference net 3%nat) as [r4 [out4 c4]];
    cbn [fst snd calls] in *; subst c4 r4; run_simpl.
  destruct t; reflexivity.
Qed.

(** C1, as the code has it: the embedder tester exits with status 0 exactly
    when the configuration yields an embedder entry and its three checks
    return True, and with status 1 otherwise; the health checker never sets
    an exit status: whenever its liveness check returns, True or False,
    [main] returns and the status is 0, whatever the checks found. *)
Theorem exit_status_of_the_scripts (lower : string -> string) (net : nat -> request -> net_result)
    (fs : string -> load_result) :
  (exit_status (fst (run (test_embedder.main lower net fs))) = 0 <->
   exists alias cfg,
     fst (run (_load_embedder_cfg fs)) = Ret (alias, cfg)
     /\ fst (test_connection net alias cfg 0%nat) = Ret true
     /\ fst (test_embedding lower net alias cfg TEST_SENTENCE 1%nat) = Ret true
     /\ fst (test_context_window net alias cfg 2%nat) = Ret true)
  /\ (exit_status (fst (run (test_embedder.main lower net fs))) = 0
      \/ exit_status (fst (run (test_embedder.main lower net fs))) = 1)
  /\ ((exists b, fst (run (check_ollama_status net)) = Ret b) ->
      exit_status (fst (run (check_ollama_config.main net))) = 0).
Proof.
  destruct (embedder_exit_status lower net fs) as [Hiff Hcases].
  split; [exact Hiff | split; [exact Hcases|]].
  intros Hb. rewrite (health_checker_returns net Hb). reflexivity.
Qed.

Lemma exit_status_of_the_scripts_witness :
  exit_status (fst (run (check_ollama_config.main net_500_after_liveness))) = 0.
Proof.
  apply (proj2 (proj2 (exit_status_of_the_scripts ascii_lower net_500_after_liveness fs_missing))).
  exists true. reflexivity.
Defined.

(** C1 as stated fails on the health checker: with the server down the
    liveness check fails and the process still ends with status 0. *)
Lemma health_checker_exits_0_on_failure :
  fst (run (check_ollama_status net_down)) = Ret false
  /\ exit_status (fst (run (check_ollama_config.main net_down))) = 0
  /\ exit_status (fst (run (check_ollama_config.main net_down))) <> 1.
Proof. repeat split. discriminate. Qed.

(** * Further properties of the health checker *)

(** [main] asks for the tag listing once or twice, and for the metadata
    and the generation only after both listings passed, in that order. *)
Theorem health_checker_requests (net : nat -> request -> net_result) :
  (calls (snd (run (check_ollama_config.main net))) = [tags_request]
   \/ calls (snd (run (check_ollama_config.main net))) = [tags_request; tags_request]
   \/ calls (snd (run (check_ollama_config.main net)))
      = [tags_request; tags_request; check_ollama_config.show_request; generate_request])
  /\ (calls (snd (run (check_ollama_config.main net)))
      = [tags_request; tags_request; check_ollama_config.show_request; generate_request]
      <-> fst (check_ollama_status net 0%nat) = Ret true
          /\ fst (check_model_available net 1%nat) = Ret (Some true)).
Proof.
  pose proof (check_ollama_status_calls net 0%nat) as Hs.
  destruct (check_model_available_run net 1%nat) as (Ha & [ra Hra] & _).
  destruct (print_model_info_run net 2%nat) as (Hi & Hic & _).
  destruct (test_model_inference_run net 3%nat) as ([b Hb] & Htc & _).
  unfold run, check_ollama_config.main. run_simpl.
  destruct (check_ollama_status net 0%nat) as [[[|]|e] [out1 c1]];
    cbn [fst snd calls] in *; subst c1; run_simpl.
  - destruct (check_model_available net 1%nat) as [r2 [out2 c2]];
      cbn [fst snd calls] in *; subst c2 r2; run_simpl.
    destruct ra as [[|]|]; cbn [truth negb]; run_simpl.
    + destruct (print_model_info net 2%nat) as [r3 [out3 c3]];
        cbn [fst snd calls] in *; subst c3 r3; run_simpl.
      destruct (test_model_inference net 3%nat) as [r4 [out4 c4]];
        cbn [fst snd calls] in *; subst c4 r4; run_simpl.
      destruct b; run_simpl; cbn [app]; intuition auto.
    + cbn [app]. intuition (discriminate || auto).
    + cbn [app]. intuition (discriminate || auto).
  - cbn [app]. intuition (discriminate || auto).
  - cbn [app]. intuition (discriminate || auto).
Qed.

(** The liveness check catches a refused connection and a timeout only:
    any other exception of the client leaves [main] uncaught, after the
    banner and one request and before any verdict, and the process ends
    with status 1; that is the only way the health checker exits with
    another status than 0. *)
Theorem health_checker_exit_status (net : nat -> request -> net_result) :
  (exit_status (fst (run (check_ollama_config.main net))) = 1 <->
   exists msg, net 0%nat tags_request = Broken msg)
  /\ (exit_status (fst (run (check_ollama_config.main net))) = 0 <->
      forall msg, net 0%nat tags_request <> Broken msg)
  /\ (forall msg, net 0%nat tags_request = Broken msg ->
      run (check_ollama_config.main net)
      = (Raise (TransportError msg), mkEffects health_banner [tags_request])).
Proof.
  assert (Hreturns : (forall msg, net 0%nat tags_request <> Broken msg) ->
                     fst (run (check_ollama_config.main net)) = Ret tt).
  { intros Hnot. apply health_checker_returns. unfold run, check_ollama_status. run_simpl.
    destruct (net 0%nat tags_request) as [r|msg|msg|msg]; run_simpl.
    - destruct (status_code r =? 200); eexists; reflexivity.
    - eexists; reflexivity.
    - eexists; reflexivity.
    - exfalso. exact (Hnot msg eq_refl). }
  assert (Hdies : forall msg, net 0%nat tags_request = Broken msg ->
                  run (check_ollama_config.main net)
                  = (Raise (TransportError msg), mkEffects health_banner [tags_request])).
  { intros msg Hmsg. unfold run, check_ollama_config.main, check_ollama_status. run_simpl.
    rewrite Hmsg. reflexivity. }
  split; [|split; [|exact Hdies]].
  - split.
    + intros Hone. destruct (net 0%nat tags_request) as [r|msg|msg|msg] eqn:Hnet;
        try (rewrite Hreturns in Hone by (intros m; discriminate); discriminate Hone).
      exists msg. reflexivity.
    + intros [msg Hmsg]. rewrite (Hdies msg Hmsg). reflexivity.
  - split.
    + intros Hzero msg Hmsg. rewrite (Hdies msg Hmsg) in Hzero. discriminate Hzero.
    + intros Hnot. rewrite (Hreturns Hnot). reflexivity.
Qed.

(** The availability check returns None exactly when its request is
    answered with another status than 200; a request that fails makes it
    return False, and it never raises. *)
Theorem availability_none_iff_non_200 (net : nat -> request -> net_result) (n : nat) :
  (fst (check_model_available net n) = Ret None <->
   exists r, net n tags_request = Responded r /\ status_code r <> 200)
  /\ (forall e, client_error (net n tags_request) = Some e ->
      check_model_available net n
      = (Ret (Some false),
         mkEffects [[Lit "❌ Error checking model availability: "; Exc e]] [tags_request]))
  /\ (exists result, fst (check_model_available net n) = Ret result).
Proof.
  split; [|split; [|apply check_model_available_run]].
  - unfold check_model_available. run_simpl.
    destruct (net n tags_request) as [r|msg|msg|msg] eqn:Hnet; run_simpl.
    + destruct (status_code r =? 200) eqn:Hs.
      * split.
        -- run_all; discriminate.
        -- intros (r' & Hr & Hne). inversion Hr; subst r'.
           apply Z.eqb_eq in Hs. contradiction.
      * split; [|reflexivity]. intros _. exists r. split; [reflexivity|].
        now apply Z.eqb_neq.
    + split; [discriminate | intros (r & Hr & _); discriminate].
    + split; [discriminate | intros (r & Hr & _); discriminate].
    + split; [discriminate | intros (r & Hr & _); discriminate].
  - intros e He. unfold check_model_available. run_simpl.
    destruct (net n tags_request) as [r|msg|msg|msg]; cbn [client_error] in He;
      inversion He; subst e; reflexivity.
Qed.

Lemma availability_none_iff_non_200_witness :
  check_model_available net_down 1%nat
  = (Ret (Some false),
     mkEffects [[Lit "❌ Error checking model availability: ";
                 Exc (ConnectError "connection refused")]] [tags_request]).
Proof.
  apply (proj1 (proj2 (availability_none_iff_non_200 net_down 1%nat))
           (ConnectError "connection refused")).
  reflexivity.
Defined.

Lemma health_checker_exit_status_witness :
  exit_status (fst (run (check_ollama_config.main (net_answers (Broken "too many redirects")))))
  = 1.
Proof.
  apply (proj1 (health_checker_exit_status (net_answers (Broken "too many redirects")))).
  exists "too many redirects". reflexivity.
Defined.

(** When the server is up and the listing of the availability check is
    answered with another status than 200, [main] takes the None it gets
    for a failure: it reports the model as not available, without the
    status, and stops after two requests. *)
Theorem unlisted_status_reads_as_missing_model (net : nat -> request -> net_result)
    (r0 r1 : response) :
  net 0%nat tags_request = Responded r0 ->
  status_code r0 = 200 ->
  net 1%nat tags_request = Responded r1 ->
  status_code r1 <> 200 ->
  run (check_ollama_config.main net)
  = (Ret tt,
     mkEffects (health_banner ++ [server_running_line; model_missing])
               [tags_request; tags_request]).
Proof.
  intros H0 Hok H1 Hne.
  unfold run, check_ollama_config.main, check_ollama_status. run_simpl.
  rewrite H0. apply Z.eqb_eq in Hok. rewrite Hok. run_simpl.
  rewrite (check_model_available_non_200 net 1%nat r1 H1 Hne). reflexivity.
Qed.

Lemma unlisted_status_reads_as_missing_model_witness :
  run (check_ollama_config.main net_500_after_liveness)
  = (Ret tt,
     mkEffects (health_banner ++ [server_running_line; model_missing])
               [tags_request; tags_request]).
Proof.
  apply (unlisted_status_reads_as_missing_model net_500_after_liveness
           (mkResponse 200 "<html>" (inl "Expecting value"))
           (mkResponse 500 "<html>" (inl "Expecting value"))).
  - reflexivity.
  - reflexivity.
  - reflexivity.
  - discriminate.
Defined.

(** A 200 listing whose body does not decode makes the availability check
    return False with the decoding error; one that decodes to a mapping
    without a "models" key counts as an empty listing: False, with None for
    the available models. *)
Theorem availability_without_a_listing (net : nat -> request -> net_result)
    (n : nat) (r : response) :
  net n tags_request = Responded r ->
  status_code r = 200 ->
  (forall msg, resp_json r = inl msg ->
     check_model_available net n
     = (Ret (Some false),
        mkEffects [[Lit "❌ Error checking model availability: "; Exc (JSONDecodeError msg)]]
                  [tags_request]))
  /\ (forall fields, resp_json r = inr (JObj fields) ->
        lookup "models" fields = None ->
        check_model_available net n
        = (Ret (Some false), mkEffects (not_available_report []) [tags_request]))
  /\ (forall body, resp_json r = inr body -> is_mapping body = false ->
        check_model_available net n
        = (Ret (Some false),
           mkEffects [[Lit "❌ Error checking model availability: "; Exc AttributeError]]
                     [tags_request])).
Proof.
  intros Hr Hok. apply Z.eqb_eq in Hok.
  split; [|split].
  - intros msg Hbody. unfold check_model_available, json_of. run_simpl.
    rewrite Hr, Hok, Hbody. reflexivity.
  - intros fields Hbody Hmodels. unfold check_model_available, json_of. run_simpl.
    rewrite Hr, Hok, Hbody. unfold py_get at 1. rewrite Hmodels. reflexivity.
  - intros body Hbody Hmap. unfold check_model_available, json_of. run_simpl.
    rewrite Hr, Hok, Hbody. destruct body; try discriminate Hmap; reflexivity.
Qed.

Lemma availability_without_a_listing_witness :
  check_model_available net_html 1%nat
  = (Ret (Some false),
     mkEffects [[Lit "❌ Error checking model availability: ";
                 Exc (JSONDecodeError "Expecting value")]] [tags_request]).
Proof.
  apply (proj1 (availability_without_a_listing net_html 1%nat
                  (mkResponse 200 "<html>" (inl "Expecting value")) eq_refl eq_refl)
           "Expecting value" eq_refl).
Defined.

(** The inference check returns True exactly when its POST is answered
    with status 200 and a body that decodes to a mapping whose "response",
    when present, is a str; it then prints what [strip] leaves of that
    text, of the empty text when the key is missing.  Nothing else of the body is looked at,
    and in every other case the check returns False: it never raises. *)
Theorem inference_passes_iff (net : nat -> request -> net_result) (n : nat) :
  (fst (test_model_inference net n) = Ret true <->
   exists r fields answer,
     net n generate_request = Responded r
     /\ status_code r = 200
     /\ resp_json r = inr (JObj fields)
     /\ field_or (JStr EmptyString) "response" fields = JStr answer)
  /\ (forall r fields answer,
        net n generate_request = Responded r ->
        status_code r = 200 ->
        resp_json r = inr (JObj fields) ->
        field_or (JStr EmptyString) "response" fields = JStr answer ->
        In [Lit "✅ Model response: "; Stripped answer]
           (stdout (snd (test_model_inference net n))))
  /\ (fst (test_model_inference net n) = Ret true
      \/ fst (test_model_inference net n) = Ret false).
Proof.
  split; [|split].
  - unfold test_model_inference, json_of. run_simpl.
    destruct (net n generate_request) as [r|msg|msg|msg]; run_simpl;
      try (split; [discriminate | intros (r' & f & a & H & _); discriminate]).
    destruct (status_code r =? 200) eqn:Hs; run_simpl.
    2: { split; [discriminate|]. intros (r' & f & a & H & H200 & _).
         inversion H; subst r'. apply Z.eqb_neq in Hs. contradiction. }
    destruct (resp_json r) as [msg|body] eqn:Hbody; run_simpl.
    { split; [discriminate|]. intros (r' & f & a & H & _ & Hb & _).
      inversion H; subst r'. congruence. }
    destruct body; cbn [py_get]; run_simpl;
      try (split; [discriminate|]; intros (r' & f & a & H & _ & Hb & _);
           inversion H; subst r'; congruence).
    fold (field_or (JStr EmptyString) "response" o).
    destruct (field_or (JStr EmptyString) "response" o) eqn:Hfield;
      cbn [py_strip]; run_simpl;
      try (split; [discriminate|]; intros (r' & f & a & H & _ & Hb & Hf);
           inversion H; subst r'; rewrite Hbody in Hb; inversion Hb; subst f;
           congruence).
    split; [|reflexivity]. intros _. exists r, o, s.
    repeat split; auto. now apply Z.eqb_eq.
  - intros r fields answer Hr Hok Hbody Hfield.
    unfold test_model_inference, json_of. run_simpl.
    apply Z.eqb_eq in Hok. rewrite Hr, Hok, Hbody. cbn [py_get].
    fold (field_or (JStr EmptyString) "response" fields). rewrite Hfield.
    cbn [py_strip]. run_simpl. cbn [app]. right. left. reflexivity.
  - destruct (test_model_inference_run net n) as ([[|] Hb] & _); auto.
Qed.

Lemma inference_passes_iff_witness :
  fst (test_model_inference (net_answers (ok (JObj [("error", JStr "model not loaded")])))
         3%nat) = Ret true.
Proof.
  apply (proj1 (inference_passes_iff
                  (net_answers (ok (JObj [("error", JStr "model not loaded")]))) 3%nat)).
  exists (mkResponse 200 EmptyString (inr (JObj [("error", JStr "model not loaded")]))).
  exists [("error", JStr "model not loaded")], EmptyString.
  repeat split.
Defined.

Lemma detail_of_mapping fields details field :
  lookup "details" fields = Some (JObj details) ->
  detail (JObj fields) field = Ret (field_or (JStr "N/A") field details).
Proof. intros H. unfold detail, py_get. rewrite H. reflexivity. Qed.

Lemma detail_without_details fields field :
  lookup "details" fields = None ->
  detail (JObj fields) field = Ret (JStr "N/A").
Proof. intros H. unfold detail, py_get. rewrite H. reflexivity. Qed.

(** On a 200 response that decodes to a mapping, the metadata report has
    the heading and the four fields, each N/A when "details" or the field
    is missing; when "details" is there but no mapping, the heading is
    printed and then the warning. *)
Theorem model_info_defaults (net : nat -> request -> net_result) (n : nat)
    (r : response) (fields : list (string * json)) :
  net n check_ollama_config.show_request = Responded r ->
  status_code r = 200 ->
  resp_json r = inr (JObj fields) ->
  (forall details, lookup "details" fields = Some (JObj details) ->
     stdout (snd (print_model_info net n)) = model_info_report details)
  /\ (lookup "details" fields = None ->
      stdout (snd (print_model_info net n)) = model_info_report [])
  /\ (forall v, lookup "details" fields = Some v -> is_mapping v = false ->
      stdout (snd (print_model_info net n))
      = [ [Lit (nl ++ "📋 Model Information for '"); Str MODEL_NAME; Lit "':"];
          [Lit "⚠️  Error retrieving model info: "; Exc AttributeError] ]).
Proof.
  intros Hr Hok Hbody. apply Z.eqb_eq in Hok.
  split; [|split].
  - intros details Hd. unfold print_model_info, json_of. run_simpl.
    rewrite Hr, Hok, Hbody. run_simpl.
    rewrite !(detail_of_mapping _ _ _ Hd). reflexivity.
  - intros Hd. unfold print_model_info, json_of. run_simpl.
    rewrite Hr, Hok, Hbody. run_simpl.
    rewrite !(detail_without_details _ _ Hd). reflexivity.
  - intros v Hd Hv. unfold print_model_info, json_of. run_simpl.
    rewrite Hr, Hok, Hbody. run_simpl.
    unfold detail, py_get. rewrite Hd.
    destruct v; try discriminate Hv; reflexivity.
Qed.

Lemma model_info_defaults_witness :
  stdout (snd (print_model_info
                 (net_answers (ok (JObj [("details", JObj [("family", JStr "qwen3")])])))
                 2%nat))
  = model_info_report [("family", JStr "qwen3")].
Proof.
  apply (proj1 (model_info_defaults
                  (net_answers (ok (JObj [("details", JObj [("family", JStr "qwen3")])])))
                  2%nat _ [("details", JObj [("family", JStr "qwen3")])]
                  eq_refl eq_refl eq_refl)
           [("family", JStr "qwen3")] eq_refl).
Defined.

Lemma checks_do_not_print_some_failed net n :
  ~ In some_failed (stdout (snd (check_ollama_status net n)))
  /\ ~ In some_failed (stdout (snd (check_model_available net n)))
  /\ ~ In some_failed (stdout (snd (print_model_info net n)))
  /\ ~ In some_failed (stdout (snd (test_model_inference net n))).
Proof.
  split; [|split; [|split]].
  - unfold check_ollama_status. run_all; simpl; intuition discriminate.
  - unfold check_model_available. run_all; simpl; intuition discriminate.
  - unfold print_model_info. run_all; simpl; intuition discriminate.
  - unfold test_model_inference. run_all; simpl; intuition discriminate.
Qed.

(** [main] reports that some checks failed exactly when liveness and
    availability passed and the inference check returned False: a failure
    of one of the first two ends the run with its own message instead. *)
Theorem some_failed_iff_inference_failed (net : nat -> request -> net_result) :
  In some_failed (stdout (snd (run (check_ollama_config.main net)))) <->
  fst (check_ollama_status net 0%nat) = Ret true
  /\ fst (check_model_available net 1%nat) = Ret (Some true)
  /\ fst (test_model_inference net 3%nat) = Ret false.
Proof.
  pose proof (check_ollama_status_calls net 0%nat) as Hs.
  destruct (checks_do_not_print_some_failed net 0%nat) as (Hsq & _).
  destruct (checks_do_not_print_some_failed net 1%nat) as (_ & Haq & _).
  destruct (checks_do_not_print_some_failed net 2%nat) as (_ & _ & Hiq & _).
  destruct (checks_do_not_print_some_failed net 3%nat) as (_ & _ & _ & Htq).
  destruct (check_model_available_run net 1%nat) as (Ha & [ra Hra] & _).
  destruct (print_model_info_run net 2%nat) as (Hi & Hic & _).
  destruct (test_model_inference_run net 3%nat) as ([b Hb] & Htc & _).
  unfold run, check_ollama_config.main. run_simpl.
  destruct (check_ollama_status net 0%nat) as [[[|]|e] [out1 c1]];
    cbn [fst snd calls stdout] in *; subst c1; run_simpl.
  - destruct (check_model_available net 1%nat) as [r2 [out2 c2]];
      cbn [fst snd calls stdout] in *; subst c2 r2; run_simpl.
    destruct ra as [[|]|]; cbn [truth negb]; run_simpl.
    + destruct (print_model_info net 2%nat) as [r3 [out3 c3]];
        cbn [fst snd calls stdout] in *; subst c3 r3; run_simpl.
      destruct (test_model_inference net 3%nat) as [r4 [out4 c4]];
        cbn [fst snd calls stdout] in *; subst c4 r4; run_simpl.
      destruct b; run_simpl; simpl; rewrite ?in_app_iff; simpl;
        intuition (discriminate || congruence).
    + simpl; rewrite ?in_app_iff; simpl; intuition (discriminate || congruence).
    + simpl; rewrite ?in_app_iff; simpl; intuition (discriminate || congruence).
  - simpl; rewrite ?in_app_iff; simpl; intuition (discriminate || congruence).
  - simpl; rewrite ?in_app_iff; simpl; intuition (discriminate || congruence).
Qed.

(** * Further properties of the embedder tester *)

Lemma first_embedder_skips (before : list (string * json)) rest :
  Forall other_entry before ->
  first_embedder (before ++ rest) = first_embedder rest.
Proof.
  induction 1 as [|[alias cfg] before (fields & Hcfg & Hkind) _ IH]; [reflexivity|].
  cbn [snd] in Hcfg. subst cfg. cbn [app first_embedder py_get].
  destruct (lookup "kind" fields) as [kind|]; [|exact IH].
  destruct (eq_str kind "embedder") eqn:Heq; [|exact IH].
  exfalso. apply Hkind. destruct kind; try discriminate Heq.
  cbn [eq_str] in Heq. apply String.eqb_eq in Heq. now subst.
Qed.

(** The loader returns the first entry tagged as an embedder, silently and
    without any request, whatever comes after it; an entry before it that
    is no mapping makes the loader raise AttributeError instead, although
    an embedder follows. *)
Theorem loader_returns_first_embedder (fs : string -> load_result) (n : nat)
    (before after : list (string * json)) (alias : string) (cfg : json) :
  fs MODELS_FILE = Loaded (JObj (before ++ (alias, cfg) :: after)) ->
  Forall other_entry before ->
  (forall fields, cfg = JObj fields ->
     lookup "kind" fields = Some (JStr "embedder") ->
     _load_embedder_cfg fs n = (Ret (alias, cfg), no_effects))
  /\ (is_mapping cfg = false ->
      _load_embedder_cfg fs n = (Raise AttributeError, no_effects)).
Proof.
  intros Hfs Hbefore. split.
  - intros fields -> Hkind. unfold _load_embedder_cfg. run_simpl. rewrite Hfs.
    cbn [py_items]. run_simpl. rewrite (first_embedder_skips _ _ Hbefore).
    cbn [first_embedder py_get]. rewrite Hkind. reflexivity.
  - intros Hmap. unfold _load_embedder_cfg. run_simpl. rewrite Hfs.
    cbn [py_items]. run_simpl. rewrite (first_embedder_skips _ _ Hbefore).
    destruct cfg; try discriminate Hmap; reflexivity.
Qed.

Lemma loader_returns_first_embedder_witness :
  _load_embedder_cfg
    (fs_holds (JObj [("chat", JObj [("kind", JStr "llm")]);
                     ("embed", JObj sample_cfg);
                     ("broken", JNull)])) 0%nat
  = (Ret ("embed", JObj sample_cfg), no_effects).
Proof.
  assert (Hbefore : Forall other_entry [("chat", JObj [("kind", JStr "llm")])]).
  { constructor; [|constructor]. exists [("kind", JStr "llm")].
    split; [reflexivity | discriminate]. }
  apply (proj1 (loader_returns_first_embedder
                  (fs_holds (JObj [("chat", JObj [("kind", JStr "llm")]);
                                   ("embed", JObj sample_cfg);
                                   ("broken", JNull)])) 0%nat
                  [("chat", JObj [("kind", JStr "llm")])] [("broken", JNull)]
                  "embed" (JObj sample_cfg) eq_refl Hbefore)
           sample_cfg eq_refl eq_refl).
Defined.

(** [_headers] of an entry: a key that is false in Python's sense (null,
    empty, 0, false) gives the content type alone; a true key that is no
    str has no [lower] and raises AttributeError; and the content type is
    always the first header. *)
Theorem headers_of_odd_keys (lower : string -> string) (fields : list (string * json)) :
  (forall v, lookup "api_key" fields = Some v -> truthy v = false ->
     _headers lower (JObj fields) = Ret [content_type])
  /\ (forall v, lookup "api_key" fields = Some v -> truthy v = true -> is_str v = false ->
        _headers lower (JObj fields) = Raise AttributeError)
  /\ (forall headers, _headers lower (JObj fields) = Ret headers ->
        headers = [content_type]
        \/ exists key, headers = [content_type; ("Authorization", "Bearer " ++ key)]).
Proof.
  split; [|split].
  - intros v Hv Hfalse. unfold _headers, py_get. rewrite Hv, Hfalse. reflexivity.
  - intros v Hv Htrue Hstr. unfold _headers, py_get. rewrite Hv, Htrue.
    destruct v; try discriminate Hstr; reflexivity.
  - intros headers. unfold _headers, py_get.
    destruct (lookup "api_key" fields) as [v|]; cbn [truthy String.eqb negb].
    + destruct (truthy v); [|intros H; inversion H; left; reflexivity].
      destruct v; cbn [py_lower]; try discriminate.
      destruct (negb _); intros H; inversion H; [right; eexists|left]; reflexivity.
    + intros H. inversion H. left. reflexivity.
Qed.

Lemma headers_of_odd_keys_witness :
  _headers ascii_lower (JObj [("api_key", JInt 12345)]) = Raise AttributeError.
Proof.
  apply (proj1 (proj2 (headers_of_odd_keys ascii_lower [("api_key", JInt 12345)]))
           (JInt 12345) eq_refl eq_refl eq_refl).
Defined.

(** With a [lower] that keeps the empty text empty, as [str.lower] does, a
    key whose lowercase form is no placeholder is not empty. *)
Lemma real_credentialb_lowered (lower : string -> string) (key : string) :
  lower EmptyString = EmptyString ->
  real_credentialb lower key = negb (in_strs (lower key) placeholders).
Proof.
  intros Hempty. unfold real_credentialb.
  destruct (String.eqb key EmptyString) eqn:Hkey; [|reflexivity].
  apply String.eqb_eq in Hkey. subst key. rewrite Hempty. reflexivity.
Qed.

(** Whether a key gets the Authorization header depends on its lowercase
    form only: two configured keys with the same lowercase form, such as
    two casings of one key, are both sent or both skipped, so a placeholder
    is skipped in any casing. *)
Theorem credential_detection_ignores_case (lower : string -> string)
    (fields fields' : list (string * json)) (key key' : string) :
  lower EmptyString = EmptyString ->
  lookup "api_key" fields = Some (JStr key) ->
  lookup "api_key" fields' = Some (JStr key') ->
  lower key = lower key' ->
  exists headers headers',
    _headers lower (JObj fields) = Ret headers
    /\ _headers lower (JObj fields') = Ret headers'
    /\ (header "Authorization" headers = None <-> header "Authorization" headers' = None).
Proof.
  intros Hempty Hkey Hkey' Hlower.
  rewrite (headers_of_key lower _ _ (key_str _ _ Hkey)),
          (headers_of_key lower _ _ (key_str _ _ Hkey')).
  do 2 eexists. split; [reflexivity | split; [reflexivity|]].
  rewrite !(real_credentialb_lowered lower _ Hempty), Hlower.
  destruct (negb _); cbn; split; intros H; (discriminate H || reflexivity).
Qed.

Lemma credential_detection_ignores_case_witness :
  exists headers headers',
    _headers ascii_lower (JObj [("api_key", JStr "No_Key_Required")]) = Ret headers
    /\ _headers ascii_lower (JObj [("api_key", JStr "NO_KEY_REQUIRED")]) = Ret headers'
    /\ (header "Authorization" headers = None <-> header "Authorization" headers' = None).
Proof.
  apply (credential_detection_ignores_case ascii_lower
           [("api_key", JStr "No_Key_Required")] [("api_key", JStr "NO_KEY_REQUIRED")]
           "No_Key_Required" "NO_KEY_REQUIRED" eq_refl eq_refl eq_refl eq_refl).
Defined.

Lemma rstrip_slash_app_slash (u : string) : rstrip_slash (u ++ "/") = rstrip_slash u.
Proof.
  induction u as [|c u IH]; [reflexivity|].
  cbn [append rstrip_slash]. now rewrite IH.
Qed.

Lemma rstrip_slash_ends (u : string) : endswith (rstrip_slash u) "/" = false.
Proof.
  induction u as [|c u IH]; [reflexivity|].
  cbn [rstrip_slash]. destruct (rstrip_slash u) as [|c' t] eqn:Hu.
  - destruct (Ascii.eqb c "/") eqn:Hc; [reflexivity|].
    cbn [endswith]. rewrite orb_false_r.
    apply String.eqb_neq. intros H. inversion H; subst c. discriminate Hc.
  - cbn [endswith] in *. rewrite IH, orb_false_r.
    apply String.eqb_neq. discriminate.
Qed.

(** The base URL the checks use has no slash at its end, and a base_url
    written with one more trailing slash gives the same one: the endpoint
    paths are never appended after a double slash. *)
Theorem trailing_slashes_do_not_matter (fields fields' : list (string * json)) (u : string) :
  lookup "base_url" fields = Some (JStr u) ->
  lookup "base_url" fields' = Some (JStr (u ++ "/")) ->
  base_url_of (JObj fields') = base_url_of (JObj fields)
  /\ exists base, base_url_of (JObj fields) = Ret base /\ endswith base "/" = false.
Proof.
  intros Hu Hu'. rewrite (base_url_of_str _ _ Hu), (base_url_of_str _ _ Hu').
  rewrite rstrip_slash_app_slash. split; [reflexivity|].
  eexists. split; [reflexivity | apply rstrip_slash_ends].
Qed.

Lemma trailing_slashes_do_not_matter_witness :
  base_url_of (JObj [("base_url", JStr "http://localhost:11434//")])
  = base_url_of (JObj [("base_url", JStr "http://localhost:11434/")]).
Proof.
  apply (proj1 (trailing_slashes_do_not_matter
                  [("base_url", JStr "http://localhost:11434/")]
                  [("base_url", JStr "http://localhost:11434//")]
                  "http://localhost:11434/" eq_refl eq_refl)).
Defined.

Lemma base_url_of_missing fields :
  lookup "base_url" fields = None -> base_url_of (JObj fields) = Raise (KeyError "base_url").
Proof. intros H. unfold base_url_of, py_getitem. rewrite H. reflexivity. Qed.

Lemma model_name_of_fields alias fields :
  model_name_of alias (JObj fields) = Ret (requested_model alias fields).
Proof. reflexivity. Qed.

(** The loader prints nothing when it returns. *)
Lemma loader_is_silent fs n entry :
  fst (_load_embedder_cfg fs n) = Ret entry -> snd (_load_embedder_cfg fs n) = no_effects.
Proof.
  unfold _load_embedder_cfg. run_all; intros H; try discriminate H; reflexivity.
Qed.

(** An embedder entry without a base_url is not rejected by the loader:
    each check raises KeyError before printing or requesting anything, so
    [main] prints the entry, with None for the base URL, and dies in the
    connectivity check with status 1 and no request issued. *)
Theorem missing_base_url_is_fatal (lower : string -> string) (net : nat -> request -> net_result)
    (fs : string -> load_result) (alias : string) (fields : list (string * json))
    (sentence : string) (n : nat) :
  lookup "base_url" fields = None ->
  test_connection net alias (JObj fields) n = (Raise (KeyError "base_url"), no_effects)
  /\ test_embedding lower net alias (JObj fields) sentence n
     = (Raise (KeyError "base_url"), no_effects)
  /\ test_context_window net alias (JObj fields) n
     = (Raise (KeyError "base_url"), no_effects)
  /\ (fst (run (_load_embedder_cfg fs)) = Ret (alias, JObj fields) ->
      run (test_embedder.main lower net fs)
      = (Raise (KeyError "base_url"), mkEffects (entry_banner alias fields) [])
      /\ exit_status (fst (run (test_embedder.main lower net fs))) = 1).
Proof.
  intros Hmissing. pose proof (base_url_of_missing _ Hmissing) as Hbase.
  split; [|split; [|split]].
  - unfold test_connection. rewrite Hbase. reflexivity.
  - unfold test_embedding. rewrite model_name_of_fields, Hbase. reflexivity.
  - unfold test_context_window. rewrite model_name_of_fields, Hbase. reflexivity.
  - intros Hload. unfold run in *.
    pose proof (loader_is_silent fs 0%nat _ Hload) as Hsilent.
    assert (Hrun : test_embedder.main lower net fs 0%nat
                   = (Raise (KeyError "base_url"), mkEffects (entry_banner alias fields) [])).
    { unfold test_embedder.main. run_simpl.
      destruct (_load_embedder_cfg fs 0%nat) as [r e]. cbn [fst snd] in *. subst r e.
      run_simpl. cbn [py_get]. run_simpl.
      unfold test_connection. rewrite Hbase. reflexivity. }
    rewrite Hrun. split; reflexivity.
Qed.

Lemma missing_base_url_is_fatal_witness :
  run (test_embedder.main ascii_lower net_down (fs_entry "embed" [("kind", JStr "embedder")]))
  = (Raise (KeyError "base_url"),
     mkEffects (entry_banner "embed" [("kind", JStr "embedder")]) []).
Proof.
  apply (proj1 (proj2 (proj2 (proj2
           (missing_base_url_is_fatal ascii_lower net_down
              (fs_entry "embed" [("kind", JStr "embedder")]) "embed"
              [("kind", JStr "embedder")] "hello" 0%nat eq_refl))) eq_refl)).
Defined.

Lemma test_context_window_calls net n alias fields u :
  lookup "base_url" fields = Some (JStr u) ->
  calls (snd (test_context_window net alias (JObj fields) n))
  = [test_embedder.show_request (rstrip_slash u ++ "/api/show") (requested_model alias fields)].
Proof.
  intros Hurl.
  unfold test_context_window, post_checked, decoded, raise_for_status, print_pass, print_fail.
  rewrite model_name_of_fields, (base_url_of_str _ _ Hurl).
  run_all; reflexivity.
Qed.

(** Both POST checks name the configured model, or the alias of the entry
    when "model" is missing, null or empty; the model-show request carries
    no headers at all, so no Authorization even when a credential is
    configured. *)
Theorem requests_name_the_model (lower : string -> string) (net : nat -> request -> net_result) (n : nat)
    (alias : string) (fields : list (string * json)) (u key sentence : string) :
  lookup "base_url" fields = Some (JStr u) ->
  api_key_is fields key ->
  (exists rq, calls (snd (test_embedding lower net alias (JObj fields) sentence n)) = [rq]
              /\ req_json rq = Some (JObj [("model", requested_model alias fields);
                                           ("input", JArr [JStr sentence])]))
  /\ (exists rq, calls (snd (test_context_window net alias (JObj fields) n)) = [rq]
                 /\ req_json rq = Some (JObj [("name", requested_model alias fields)])
                 /\ req_headers rq = [])
  /\ (truthy (field_or JNull "model" fields) = false ->
      requested_model alias fields = JStr alias)
  /\ (forall model, lookup "model" fields = Some (JStr model) -> model <> EmptyString ->
      requested_model alias fields = JStr model).
Proof.
  intros Hurl Hkey. split; [|split; [|split]].
  - eexists. split.
    + apply (test_embedding_calls lower net n alias fields u key sentence _ Hurl Hkey
               (model_name_of_fields alias fields)).
    + reflexivity.
  - eexists. split; [apply (test_context_window_calls net n alias fields u Hurl)|].
    split; reflexivity.
  - intros Hfalse. unfold requested_model. now rewrite Hfalse.
  - intros model Hmodel Hne. unfold requested_model, field_or. rewrite Hmodel.
    cbn [truthy]. apply String.eqb_neq in Hne. now rewrite Hne.
Qed.

Lemma requests_name_the_model_witness :
  exists rq,
    calls (snd (test_context_window net_down "embed" (JObj keyed_cfg) 2%nat)) = [rq]
    /\ req_json rq = Some (JObj [("name", requested_model "embed" keyed_cfg)])
    /\ req_headers rq = [].
Proof.
  apply (proj1 (proj2 (requests_name_the_model ascii_lower net_down 2%nat "embed" keyed_cfg
                         "https://api.example.com" "sk-123" "hello" eq_refl
                         (key_str keyed_cfg "sk-123" eq_refl)))).
Defined.

(** When the three checks return, [main] has printed the entry, then what
    each check printed, in order, then the rule and the count of checks that
    returned True out of 3; it issued their requests in order, and it ends
    with [sys.exit(1)] unless all three returned True. *)
Theorem main_composes_the_checks (lower : string -> string) (net : nat -> request -> net_result)
    (fs : string -> load_result) (alias : string) (fields : list (string * json))
    (r1 r2 r3 : bool) (e1 e2 e3 : effects) :
  fst (run (_load_embedder_cfg fs)) = Ret (alias, JObj fields) ->
  test_connection net alias (JObj fields) 0%nat = (Ret r1, e1) ->
  test_embedding lower net alias (JObj fields) TEST_SENTENCE 1%nat = (Ret r2, e2) ->
  test_context_window net alias (JObj fields) 2%nat = (Ret r3, e3) ->
  run (test_embedder.main lower net fs)
  = ((if r1 && r2 && r3 then Ret tt else Raise (SystemExit 1)),
     mkEffects (entry_banner alias fields ++ stdout e1 ++ stdout e2 ++ stdout e3
                ++ [[Lit nl; Str (str_mul "─" 40)];
                    results_line (py_sum [r1; r2; r3])])
               (calls e1 ++ calls e2 ++ calls e3)).
Proof.
  intros Hload H1 H2 H3. unfold run in *.
  pose proof (loader_is_silent fs 0%nat _ Hload) as Hsilent.
  pose proof (proj1 (test_connection_returns net alias (JObj fields) 0%nat) r1) as Hc1.
  pose proof (proj1 (test_embedding_returns lower net alias (JObj fields) TEST_SENTENCE 1%nat) r2)
    as Hc2.
  rewrite H1 in Hc1. rewrite H2 in Hc2. cbn [fst snd] in Hc1, Hc2.
  specialize (Hc1 eq_refl). specialize (Hc2 eq_refl).
  unfold test_embedder.main. run_simpl.
  destruct (_load_embedder_cfg fs 0%nat) as [r e]. cbn [fst snd] in Hload, Hsilent.
  subst r e. run_simpl. cbn [py_get]. run_simpl.
  rewrite H1. destruct e1 as [out1 c1]. cbn [calls] in Hc1 |- *. rewrite Hc1. run_simpl.
  rewrite H2. destruct e2 as [out2 c2]. cbn [calls] in Hc2 |- *. rewrite Hc2. run_simpl.
  rewrite H3. destruct e3 as [out3 c3]. run_simpl.
  destruct r1, r2, r3; cbn; unfold then_effects, no_effects, field_or; cbn;
    rewrite ?app_nil_r, <- ?app_assoc; reflexivity.
Qed.

Lemma main_composes_the_checks_witness :
  run (test_embedder.main ascii_lower net_down (fs_entry "embed" sample_cfg))
  = (Raise (SystemExit 1),
     mkEffects
       (entry_banner "embed" sample_cfg
        ++ stdout (snd (test_connection net_down "embed" (JObj sample_cfg) 0%nat))
        ++ stdout (snd (test_embedding ascii_lower net_down "embed" (JObj sample_cfg) TEST_SENTENCE 1%nat))
        ++ stdout (snd (test_context_window net_down "embed" (JObj sample_cfg) 2%nat))
        ++ [[Lit nl; Str (str_mul "─" 40)]; results_line 0])
       (calls (snd (test_connection net_down "embed" (JObj sample_cfg) 0%nat))
        ++ calls (snd (test_embedding ascii_lower net_down "embed" (JObj sample_cfg) TEST_SENTENCE 1%nat))
        ++ calls (snd (test_context_window net_down "embed" (JObj sample_cfg) 2%nat)))).
Proof.
  apply (main_composes_the_checks ascii_lower net_down (fs_entry "embed" sample_cfg) "embed" sample_cfg
           false false false _ _ _ eq_refl eq_refl eq_refl eq_refl).
Defined.

(** The connectivity check catches every exception of the client and
    returns False; the two POST checks catch a refused connection and a
    timeout only, so any other exception of the client goes through them
    uncaught. *)
Theorem post_checks_let_other_client_errors_through (lower : string -> string) (net : nat -> request -> net_result)
    (n : nat) (alias : string) (fields : list (string * json)) (u key sentence msg : string) :
  lookup "base_url" fields = Some (JStr u) ->
  api_key_is fields key ->
  (forall rq, net n rq = Broken msg) ->
  fst (test_connection net alias (JObj fields) n) = Ret false
  /\ fst (test_embedding lower net alias (JObj fields) sentence n) = Raise (TransportError msg)
  /\ fst (test_context_window net alias (JObj fields) n) = Raise (TransportError msg).
Proof.
  intros Hurl Hkey Hnet. split; [|split].
  - unfold test_connection, print_pass, print_fail. rewrite (base_url_of_str _ _ Hurl).
    run_simpl. rewrite Hnet. reflexivity.
  - unfold test_embedding, post_checked.
    rewrite model_name_of_fields, (base_url_of_str _ _ Hurl), (headers_of_key lower _ _ Hkey).
    run_simpl. rewrite Hnet. reflexivity.
  - unfold test_context_window, post_checked.
    rewrite model_name_of_fields, (base_url_of_str _ _ Hurl).
    run_simpl. rewrite Hnet. reflexivity.
Qed.

Lemma post_checks_let_other_client_errors_through_witness :
  fst (test_embedding ascii_lower (net_answers (Broken "peer closed connection"))
         "embed" (JObj sample_cfg) "hello" 1%nat)
  = Raise (TransportError "peer closed connection").
Proof.
  apply (proj1 (proj2 (post_checks_let_other_client_errors_through ascii_lower
                         (net_answers (Broken "peer closed connection")) 1%nat
                         "embed" sample_cfg "http://localhost:11434/" "ollama" "hello"
                         "peer closed connection" eq_refl
                         (key_str sample_cfg "ollama" eq_refl) (fun _ => eq_refl)))).
Defined.

Lemma test_connection_always_returns net n alias fields u :
  lookup "base_url" fields = Some (JStr u) ->
  exists r e, test_connection net alias (JObj fields) n = (Ret r, e).
Proof.
  intros Hurl. unfold test_connection, print_pass, print_fail.
  rewrite (base_url_of_str _ _ Hurl). run_simpl.
  destruct (net n (connection_request (rstrip_slash u))); run_simpl;
    do 2 eexists; reflexivity.
Qed.

(** Such an exception in the embedding check ends the whole run: [main]
    dies with it after two requests, status 1, and the context-window check
    never runs, whatever the connectivity check found. *)
Theorem embedding_client_error_ends_the_run (lower : string -> string) (net : nat -> request -> net_result)
    (fs : string -> load_result) (alias : string) (fields : list (string * json))
    (u key msg : string) :
  fst (run (_load_embedder_cfg fs)) = Ret (alias, JObj fields) ->
  lookup "base_url" fields = Some (JStr u) ->
  api_key_is fields key ->
  (forall rq, net 1%nat rq = Broken msg) ->
  fst (run (test_embedder.main lower net fs)) = Raise (TransportError msg)
  /\ exit_status (fst (run (test_embedder.main lower net fs))) = 1
  /\ length (calls (snd (run (test_embedder.main lower net fs)))) = 2%nat.
Proof.
  intros Hload Hurl Hkey Hnet. unfold run in *.
  pose proof (loader_is_silent fs 0%nat _ Hload) as Hsilent.
  destruct (test_connection_always_returns net 0%nat alias fields u Hurl) as (r1 & e1 & H1).
  pose proof (proj1 (test_connection_returns net alias (JObj fields) 0%nat) r1) as Hc1.
  rewrite H1 in Hc1. cbn [fst snd] in Hc1. specialize (Hc1 eq_refl).
  pose proof (test_embedding_calls lower net 1%nat alias fields u key TEST_SENTENCE _ Hurl Hkey
                (model_name_of_fields alias fields)) as Hc2.
  pose proof (proj1 (proj2 (post_checks_let_other_client_errors_through lower net 1%nat alias fields
                              u key TEST_SENTENCE msg Hurl Hkey Hnet))) as H2.
  assert (Hrun : fst (test_embedder.main lower net fs 0%nat) = Raise (TransportError msg)
                 /\ length (calls (snd (test_embedder.main lower net fs 0%nat))) = 2%nat).
  { unfold test_embedder.main. run_simpl.
    destruct (_load_embedder_cfg fs 0%nat) as [r e]. cbn [fst snd] in Hload, Hsilent.
    subst r e. run_simpl. cbn [py_get]. run_simpl.
    rewrite H1. destruct e1 as [out1 c1]. cbn [calls] in Hc1 |- *. rewrite Hc1. run_simpl.
    destruct (test_embedding lower net alias (JObj fields) TEST_SENTENCE 1%nat) as [r2 [out2 c2]].
    cbn [fst snd calls] in H2, Hc2. subst r2 c2. run_simpl.
    split; [reflexivity|]. rewrite length_app, Hc1. reflexivity. }
  destruct Hrun as [Hfst Hlen]. rewrite Hfst. repeat split. exact Hlen.
Qed.

Lemma embedding_client_error_ends_the_run_witness :
  fst (run (test_embedder.main ascii_lower (net_answers (Broken "peer closed connection"))
              (fs_entry "embed" sample_cfg)))
  = Raise (TransportError "peer closed connection").
Proof.
  apply (proj1 (embedding_client_error_ends_the_run ascii_lower
                  (net_answers (Broken "peer closed connection"))
                  (fs_entry "embed" sample_cfg) "embed" sample_cfg
                  "http://localhost:11434/" "ollama" "peer closed connection"
                  eq_refl eq_refl (key_str sample_cfg "ollama" eq_refl) (fun _ => eq_refl))).
Defined.

(** With the server refusing or timing out on every request, all three
    checks still run: [main] issues its three requests in order, reports 0
    of 3 and ends with [sys.exit(1)]. *)
Theorem every_check_runs_when_the_server_is_down (lower : string -> string) (net : nat -> request -> net_result)
    (fs : string -> load_result) (alias : string) (fields : list (string * json))
    (u key : string) :
  fst (run (_load_embedder_cfg fs)) = Ret (alias, JObj fields) ->
  lookup "base_url" fields = Some (JStr u) ->
  api_key_is fields key ->
  (forall k rq, refused_or_timed_out (net k rq)) ->
  fst (run (test_embedder.main lower net fs)) = Raise (SystemExit 1)
  /\ In (results_line 0) (stdout (snd (run (test_embedder.main lower net fs))))
  /\ exists headers,
       calls (snd (run (test_embedder.main lower net fs)))
       = [ connection_request (rstrip_slash u);
           embeddings_request (rstrip_slash u ++ "/v1/embeddings") headers
             (requested_model alias fields) TEST_SENTENCE;
           test_embedder.show_request (rstrip_slash u ++ "/api/show")
             (requested_model alias fields) ].
Proof.
  intros Hload Hurl Hkey Hdown.
  assert (H1 : exists e1, test_connection net alias (JObj fields) 0%nat = (Ret false, e1)
                          /\ calls e1 = [connection_request (rstrip_slash u)]).
  { unfold test_connection, print_pass, print_fail. rewrite (base_url_of_str _ _ Hurl).
    run_simpl. specialize (Hdown 0%nat (connection_request (rstrip_slash u))).
    destruct (net 0%nat (connection_request (rstrip_slash u))); try contradiction;
      run_simpl; eexists; split; reflexivity. }
  assert (H2 : exists e2,
             test_embedding lower net alias (JObj fields) TEST_SENTENCE 1%nat = (Ret false, e2)).
  { unfold test_embedding, post_checked, print_fail.
    rewrite model_name_of_fields, (base_url_of_str _ _ Hurl), (headers_of_key lower _ _ Hkey).
    run_simpl.
    match goal with |- context [net 1%nat ?rq] =>
      specialize (Hdown 1%nat rq); destruct (net 1%nat rq) end;
      try contradiction; run_simpl; eexists; reflexivity. }
  assert (H3 : exists e3,
             test_context_window net alias (JObj fields) 2%nat = (Ret false, e3)).
  { unfold test_context_window, post_checked, print_fail.
    rewrite model_name_of_fields, (base_url_of_str _ _ Hurl).
    run_simpl.
    match goal with |- context [net 2%nat ?rq] =>
      specialize (Hdown 2%nat rq); destruct (net 2%nat rq) end;
      try contradiction; run_simpl; eexists; reflexivity. }
  destruct H1 as (e1 & H1 & Hc1). destruct H2 as (e2 & H2). destruct H3 as (e3 & H3).
  pose proof (test_embedding_calls lower net 1%nat alias fields u key TEST_SENTENCE _ Hurl Hkey
                (model_name_of_fields alias fields)) as Hc2.
  pose proof (test_context_window_calls net 2%nat alias fields u Hurl) as Hc3.
  rewrite H2 in Hc2. rewrite H3 in Hc3. cbn [snd] in Hc2, Hc3.
  rewrite (main_composes_the_checks lower net fs alias fields false false false e1 e2 e3
             Hload H1 H2 H3).
  cbn [fst snd stdout calls andb py_sum]. split; [reflexivity | split].
  - rewrite !in_app_iff. do 4 right. right. left. reflexivity.
  - rewrite Hc1, Hc2, Hc3. eexists. reflexivity.
Qed.

Lemma every_check_runs_when_the_server_is_down_witness :
  fst (run (test_embedder.main ascii_lower net_down (fs_entry "embed" sample_cfg)))
  = Raise (SystemExit 1).
Proof.
  apply (proj1 (every_check_runs_when_the_server_is_down ascii_lower net_down
                  (fs_entry "embed" sample_cfg) "embed" sample_cfg
                  "http://localhost:11434/" "ollama"
                  eq_refl eq_refl (key_str sample_cfg "ollama" eq_refl) (fun _ _ => I))).
Defined.

Lemma test_embedding_after_response (lower : string -> string) (net : nat -> request -> net_result) (n : nat)
    (alias : string) (fields : list (string * json)) (u key sentence : string)
    (r : response) :
  lookup "base_url" fields = Some (JStr u) ->
  api_key_is fields key ->
  (forall rq, net n rq = Responded r) ->
  is_success (status_code r) = true ->
  forall body, resp_json r = inr body ->
  fst (test_embedding lower net alias (JObj fields) sentence n)
  = match py_get body "data" JNull with
    | Raise e => Raise e
    | Ret (JArr (first :: _)) =>
        match py_get first "embedding" JNull with
        | Raise e => Raise e
        | Ret (JArr (x :: xs)) => Ret (forallb is_int_or_float (firstn 5 (x :: xs)))
        | Ret _ => Ret false
        end
    | Ret _ => Ret false
    end.
Proof.
  intros Hurl Hkey Hnet Hok body Hbody.
  unfold test_embedding, post_checked, decoded, raise_for_status, print_pass, print_fail.
  rewrite model_name_of_fields, (base_url_of_str _ _ Hurl), (headers_of_key lower _ _ Hkey).
  run_simpl. rewrite Hnet, Hok. unfold json_of. rewrite Hbody. run_simpl.
  destruct (py_get body "data" JNull) as [data|e]; run_simpl; [|reflexivity].
  destruct data as [| | | | |[|first rest]|]; run_simpl; try reflexivity.
  destruct (py_get first "embedding" JNull) as [embedding|e]; run_simpl; [|reflexivity].
  destruct embedding as [| | | | |[|x xs]|]; run_simpl; try reflexivity.
  destruct (forallb is_int_or_float (firstn 5 (x :: xs))); reflexivity.
Qed.

(** The failures the embedding check turns into False, with base_url and
    api_key configured: a refused connection or a timeout, a status outside
    2xx, a body that does not decode, and a decoded mapping whose "data" is
    missing, no list or empty, whose first item has no non-empty list under
    "embedding", or has a value among the first five that is no number. *)
Theorem embedding_check_failures (lower : string -> string) (net : nat -> request -> net_result) (n : nat)
    (alias : string) (fields : list (string * json)) (u key sentence : string)
    (o : net_result) :
  lookup "base_url" fields = Some (JStr u) ->
  api_key_is fields key ->
  (forall rq, net n rq = o) ->
  (refused_or_timed_out o ->
     fst (test_embedding lower net alias (JObj fields) sentence n) = Ret false)
  /\ (forall r, o = Responded r -> is_success (status_code r) = false ->
      fst (test_embedding lower net alias (JObj fields) sentence n) = Ret false)
  /\ (forall r msg, o = Responded r -> is_success (status_code r) = true ->
      resp_json r = inl msg ->
      fst (test_embedding lower net alias (JObj fields) sentence n) = Ret false)
  /\ (forall r body_fields, o = Responded r -> is_success (status_code r) = true ->
      resp_json r = inr (JObj body_fields) ->
      is_filled_list (field_or JNull "data" body_fields) = false ->
      fst (test_embedding lower net alias (JObj fields) sentence n) = Ret false)
  /\ (forall r body_fields item_fields items, o = Responded r ->
      is_success (status_code r) = true ->
      resp_json r = inr (JObj body_fields) ->
      lookup "data" body_fields = Some (JArr (JObj item_fields :: items)) ->
      (is_filled_list (field_or JNull "embedding" item_fields) = false
       \/ exists values, lookup "embedding" item_fields = Some (JArr values)
                         /\ forallb is_int_or_float (firstn 5 values) = false) ->
      fst (test_embedding lower net alias (JObj fields) sentence n) = Ret false).
Proof.
  intros Hurl Hkey Hnet.
  split; [|split; [|split; [|split]]].
  - intros Hdown.
    unfold test_embedding, post_checked, print_fail.
    rewrite model_name_of_fields, (base_url_of_str _ _ Hurl), (headers_of_key lower _ _ Hkey).
    run_simpl. rewrite Hnet. destruct o; try contradiction; reflexivity.
  - intros r -> Hbad.
    unfold test_embedding, post_checked, raise_for_status, print_fail.
    rewrite model_name_of_fields, (base_url_of_str _ _ Hurl), (headers_of_key lower _ _ Hkey).
    run_simpl. rewrite Hnet, Hbad. reflexivity.
  - intros r msg -> Hok Hbody.
    unfold test_embedding, post_checked, decoded, raise_for_status, print_fail.
    rewrite model_name_of_fields, (base_url_of_str _ _ Hurl), (headers_of_key lower _ _ Hkey).
    run_simpl. rewrite Hnet, Hok. unfold json_of. rewrite Hbody. reflexivity.
  - intros r body_fields -> Hok Hbody Hdata.
    rewrite (test_embedding_after_response lower net n alias fields u key sentence r
               Hurl Hkey Hnet Hok _ Hbody).
    cbn [py_get]. fold (field_or JNull "data" body_fields).
    destruct (field_or JNull "data" body_fields) as [| | | | |[|first rest]|];
      try reflexivity. discriminate Hdata.
  - intros r body_fields item_fields items -> Hok Hbody Hdata Hbad.
    rewrite (test_embedding_after_response lower net n alias fields u key sentence r
               Hurl Hkey Hnet Hok _ Hbody).
    cbn [py_get]. rewrite Hdata. cbn [py_get].
    fold (field_or JNull "embedding" item_fields).
    destruct Hbad as [Hempty|(values & Hvalues & Hnum)].
    + destruct (field_or JNull "embedding" item_fields) as [| | | | |[|x xs]|];
        try reflexivity. discriminate Hempty.
    + unfold field_or. rewrite Hvalues. destruct values as [|x xs]; [reflexivity|].
      now rewrite Hnum.
Qed.

Lemma embedding_check_failures_witness :
  fst (test_embedding ascii_lower (net_answers (ok (JObj [("error", JStr "model not found")])))
         "embed" (JObj sample_cfg) "hello" 1%nat) = Ret false.
Proof.
  apply (proj1 (proj2 (proj2 (proj2
           (embedding_check_failures ascii_lower
              (net_answers (ok (JObj [("error", JStr "model not found")]))) 1%nat
              "embed" sample_cfg "http://localhost:11434/" "ollama" "hello" _
              eq_refl (key_str sample_cfg "ollama" eq_refl) (fun _ => eq_refl)))))
           _ [("error", JStr "model not found")] eq_refl eq_refl eq_refl eq_refl).
Defined.

(** Two shapes are not caught: a 2xx body that decodes to something else
    than a mapping, and a "data" list whose first item is no mapping, make
    the embedding check raise AttributeError instead of returning False. *)
Theorem embedding_check_raises_on_odd_shapes (lower : string -> string) (net : nat -> request -> net_result) (n : nat)
    (alias : string) (fields : list (string * json)) (u key sentence : string)
    (r : response) :
  lookup "base_url" fields = Some (JStr u) ->
  api_key_is fields key ->
  (forall rq, net n rq = Responded r) ->
  is_success (status_code r) = true ->
  (forall body, resp_json r = inr body -> is_mapping body = false ->
     fst (test_embedding lower net alias (JObj fields) sentence n) = Raise AttributeError)
  /\ (forall body_fields first rest, resp_json r = inr (JObj body_fields) ->
      lookup "data" body_fields = Some (JArr (first :: rest)) ->
      is_mapping first = false ->
      fst (test_embedding lower net alias (JObj fields) sentence n) = Raise AttributeError).
Proof.
  intros Hurl Hkey Hnet Hok. split.
  - intros body Hbody Hmap.
    rewrite (test_embedding_after_response lower net n alias fields u key sentence r
               Hurl Hkey Hnet Hok _ Hbody).
    destruct body; try discriminate Hmap; reflexivity.
  - intros body_fields first rest Hbody Hdata Hmap.
    rewrite (test_embedding_after_response lower net n alias fields u key sentence r
               Hurl Hkey Hnet Hok _ Hbody).
    cbn [py_get]. rewrite Hdata.
    destruct first; try discriminate Hmap; reflexivity.
Qed.

Lemma embedding_check_raises_on_odd_shapes_witness :
  fst (test_embedding ascii_lower (net_answers (ok (JObj [("data", JArr [JArr three_values])])))
         "embed" (JObj sample_cfg) "hello" 1%nat) = Raise AttributeError.
Proof.
  apply (proj2 (embedding_check_raises_on_odd_shapes ascii_lower
                  (net_answers (ok (JObj [("data", JArr [JArr three_values])]))) 1%nat
                  "embed" sample_cfg "http://localhost:11434/" "ollama" "hello" _
                  eq_refl (key_str sample_cfg "ollama" eq_refl) (fun _ => eq_refl) eq_refl)
           [("data", JArr [JArr three_values])] (JArr three_values) [] eq_refl eq_refl eq_refl).
Defined.

(** [take_chars n s] is the start of [s] and has [n] characters, or all
    of them when [s] has fewer. *)
Lemma take_chars_spec (n : nat) (s : string) :
  (exists rest, s = take_chars n s ++ rest)
  /\ char_length (take_chars n s) = Nat.min n (char_length s).
Proof.
  revert n. induction s as [|c s IH]; intros n; cbn [take_chars char_length].
  - split; [exists EmptyString; reflexivity | now rewrite Nat.min_0_r].
  - destruct (is_continuation c) eqn:Hc.
    + destruct (IH n) as [[rest Hrest] Hlen]. split.
      * exists rest. cbn [append]. now rewrite <- Hrest.
      * cbn [char_length]. now rewrite Hc.
    + destruct n as [|n].
      * split; [exists (String c s); reflexivity | reflexivity].
      * destruct (IH n) as [[rest Hrest] Hlen]. split.
        -- exists rest. cbn [append]. now rewrite <- Hrest.
        -- cbn [char_length]. rewrite Hc, Hlen. reflexivity.
Qed.

(** On a status outside 2xx both POST checks print the status and the
    start of the response text, at most 500 characters of it, before they
    return False; the context-window check adds that the endpoint may be
    missing on other providers. *)
Theorem http_error_text_is_cut (lower : string -> string) (net : nat -> request -> net_result) (n : nat)
    (alias : string) (fields : list (string * json)) (u key sentence : string)
    (r : response) :
  lookup "base_url" fields = Some (JStr u) ->
  api_key_is fields key ->
  (forall rq, net n rq = Responded r) ->
  is_success (status_code r) = false ->
  (exists banner,
     stdout (snd (test_embedding lower net alias (JObj fields) sentence n))
     = app banner [http_error_line r; fail_line])
  /\ (exists banner,
        stdout (snd (test_context_window net alias (JObj fields) n))
        = app banner
              [http_error_line r;
               [Lit "  (Endpoint may not be available for non-Ollama providers.)"];
               fail_line])
  /\ (exists rest, text r = take_chars 500 (text r) ++ rest)
  /\ char_length (take_chars 500 (text r)) = Nat.min 500 (char_length (text r)).
Proof.
  intros Hurl Hkey Hnet Hbad. split; [|split; [|apply take_chars_spec]].
  - unfold test_embedding, post_checked, raise_for_status, print_fail.
    rewrite model_name_of_fields, (base_url_of_str _ _ Hurl), (headers_of_key lower _ _ Hkey).
    run_simpl. rewrite Hnet, Hbad. run_simpl.
    eexists [_; _; _]. reflexivity.
  - unfold test_context_window, post_checked, raise_for_status, print_fail.
    rewrite model_name_of_fields, (base_url_of_str _ _ Hurl).
    run_simpl. rewrite Hnet, Hbad. run_simpl.
    eexists [_; _]. reflexivity.
Qed.

Lemma http_error_text_is_cut_witness :
  exists banner,
    stdout (snd (test_context_window (net_answers (status_only 404))
                   "embed" (JObj sample_cfg) 2%nat))
    = app banner
          [http_error_line (mkResponse 404 "<html>" (inl "Expecting value"));
           [Lit "  (Endpoint may not be available for non-Ollama providers.)"];
           fail_line].
Proof.
  apply (proj1 (proj2 (http_error_text_is_cut ascii_lower (net_answers (status_only 404)) 2%nat
                         "embed" sample_cfg "http://localhost:11434/" "ollama" "hello"
                         (mkResponse 404 "<html>" (inl "Expecting value"))
                         eq_refl (key_str sample_cfg "ollama" eq_refl) (fun _ => eq_refl)
                         eq_refl))).
Defined.

(** When the value under the first key ending in ".context_length" is no
    number, the context-window check neither passes nor fails: after the
    line with the key, the format with thousands separators raises
    ValueError on a str and TypeError on null, a list or a mapping. *)
Theorem context_window_raises_on_other_values (net : nat -> request -> net_result)
    (n : nat) (alias : string) (fields : list (string * json)) (u : string)
    (r : response) (body_fields modelinfo : list (string * json))
    (key : string) (value : json) :
  lookup "base_url" fields = Some (JStr u) ->
  (forall rq, net n rq = Responded r) ->
  is_success (status_code r) = true ->
  resp_json r = inr (JObj body_fields) ->
  lookup "modelinfo" body_fields = Some (JObj modelinfo) ->
  first_with_suffix ".context_length" modelinfo = Some (key, value) ->
  is_int_or_float value = false ->
  test_context_window net alias (JObj fields) n
  = (Raise (format_error value),
     mkEffects (context_banner (rstrip_slash u ++ "/api/show") (requested_model alias fields)
                ++ [context_key_line key])
               [test_embedder.show_request (rstrip_slash u ++ "/api/show")
                  (requested_model alias fields)]).
Proof.
  intros Hurl Hnet Hok Hbody Hinfo Hfirst Hvalue.
  unfold test_context_window, post_checked, decoded, raise_for_status, print_pass, print_fail.
  rewrite model_name_of_fields, (base_url_of_str _ _ Hurl).
  run_simpl. rewrite Hnet, Hok. unfold json_of. rewrite Hbody. run_simpl.
  rewrite (py_get_entry _ _ _ _ Hinfo). run_simpl.
  destruct modelinfo as [|entry modelinfo]; [discriminate Hfirst|].
  cbn [truthy negb]. unfold py_iter. run_simpl.
  rewrite next_endswith_keys, Hfirst. cbn [option_map fst]. run_simpl.
  unfold py_getitem. rewrite (first_with_suffix_lookup _ _ _ _ Hfirst). run_simpl.
  destruct value; try discriminate Hvalue; reflexivity.
Qed.

Lemma context_window_raises_on_other_values_witness :
  fst (test_context_window
         (net_answers (ok (modelinfo_body [("general.architecture", JStr "llama");
                                           ("llama.context_length", JNull)])))
         "embed" (JObj sample_cfg) 2%nat) = Raise TypeError.
Proof.
  rewrite (context_window_raises_on_other_values
             (net_answers (ok (modelinfo_body [("general.architecture", JStr "llama");
                                               ("llama.context_length", JNull)])))
             2%nat "embed" sample_cfg "http://localhost:11434/" _ _
             [("general.architecture", JStr "llama"); ("llama.context_length", JNull)]
             "llama.context_length" JNull
             eq_refl (fun _ => eq_refl) eq_refl eq_refl eq_refl eq_refl eq_refl).
  reflexivity.
Defined.

(** What the context-window check prints when it finds no context length
    in a decoded 2xx response: the whole response when "modelinfo" is
    missing or empty, and the keys of modelinfo, in order, when none of them
    ends in ".context_length"; it returns False in both cases. *)
Theorem context_window_reports_what_it_saw (net : nat -> request -> net_result)
    (n : nat) (alias : string) (fields : list (string * json)) (u : string)
    (r : response) (body_fields : list (string * json)) :
  lookup "base_url" fields = Some (JStr u) ->
  (forall rq, net n rq = Responded r) ->
  is_success (status_code r) = true ->
  resp_json r = inr (JObj body_fields) ->
  (truthy (field_or (JObj []) "modelinfo" body_fields) = false ->
     fst (test_context_window net alias (JObj fields) n) = Ret false
     /\ stdout (snd (test_context_window net alias (JObj fields) n))
        = app (context_banner (rstrip_slash u ++ "/api/show")
                 (requested_model alias fields))
              [[Lit "  No 'modelinfo' key in response. Full response: ";
                Val (JObj body_fields)];
               fail_line])
  /\ (forall entry modelinfo,
        lookup "modelinfo" body_fields = Some (JObj (entry :: modelinfo)) ->
        first_with_suffix ".context_length" (entry :: modelinfo) = None ->
        fst (test_context_window net alias (JObj fields) n) = Ret false
        /\ stdout (snd (test_context_window net alias (JObj fields) n))
           = app (context_banner (rstrip_slash u ++ "/api/show")
                    (requested_model alias fields))
                 [[Lit "  No '*.context_length' key found in modelinfo."];
                  [Lit "  Available keys: ";
                   Val (JArr (map (fun kv => JStr (fst kv)) (entry :: modelinfo)))];
                  fail_line]).
Proof.
  intros Hurl Hnet Hok Hbody. split.
  - intros Hfalsy.
    unfold test_context_window, post_checked, decoded, raise_for_status, print_pass,
      print_fail.
    rewrite model_name_of_fields, (base_url_of_str _ _ Hurl).
    run_simpl. rewrite Hnet, Hok. unfold json_of. rewrite Hbody. run_simpl.
    cbn [py_get]. fold (field_or (JObj []) "modelinfo" body_fields). run_simpl.
    rewrite Hfalsy. split; reflexivity.
  - intros entry modelinfo Hinfo Hnone.
    unfold test_context_window, post_checked, decoded, raise_for_status, print_pass,
      print_fail.
    rewrite model_name_of_fields, (base_url_of_str _ _ Hurl).
    run_simpl. rewrite Hnet, Hok. unfold json_of. rewrite Hbody. run_simpl.
    rewrite (py_get_entry _ _ _ _ Hinfo). run_simpl.
    cbn [truthy negb]. unfold py_iter. run_simpl.
    rewrite next_endswith_keys, Hnone. split; reflexivity.
Qed.

Lemma context_window_reports_what_it_saw_witness :
  fst (test_context_window
         (net_answers (ok (modelinfo_body [("general.architecture", JStr "bert")])))
         "embed" (JObj sample_cfg) 2%nat) = Ret false.
Proof.
  apply (proj2 (context_window_reports_what_it_saw
                  (net_answers (ok (modelinfo_body [("general.architecture", JStr "bert")])))
                  2%nat "embed" sample_cfg "http://localhost:11434/" _
                  [("modelinfo", JObj [("general.architecture", JStr "bert")])]
                  eq_refl (fun _ => eq_refl) eq_refl eq_refl)
           ("general.architecture", JStr "bert") [] eq_refl eq_refl).
Defined.
